(** * MediFind: the consultation booking transaction and the application
      state cache

    A shallow embedding of
    - [services/consultationService.ts]: [bookConsultation] over the remote
      document collections, [updateConsultationStatus], [cancelConsultation]
      and the reads [fetchDoctors], [fetchDoctorAvailability] and
      [fetchConsultationById];
    - the notification service: [scheduleConsultationReminder] and the
      notifications it sends;
    - the zustand store [useStore]: its actions and [hydrate], mirrored to
      AsyncStorage;
    - the booking screen's [handleBookConsultation], the status filter of
      the consultations list, and [signInWithGoogle];
    and the properties the specification states about them.

    Conventions.  A JavaScript [Date] is its epoch value in milliseconds
    ([Z]); a [number] that the modelled code only copies is a [Z]; an
    optional field is an [option]; a thrown [Error] is its message.  A
    promise that rejects is a [Result] on the left, one that resolves is a
    [Result] on the right.  What the code takes from its environment (the
    identifier a new document reference gets, the clock and the device's
    time zone, whether a read, a commit or a write to storage goes
    through) is an argument of the embedded function. *)

From Stdlib Require Import ZArith String List Bool Lia.
From stdpp Require Import base option list strings pretty gmap fin_maps.
From stdpp Require Import sorting.

#[local] Open Scope string_scope.
#[local] Open Scope list_scope.
#[local] Open Scope Z_scope.

(** ** Errors and results *)

Record Error := mkError { message : string }.

Definition Result (A : Type) : Type := (Error + A)%type.

Definition isOk {A} (r : Result A) : bool :=
  match r with inr _ => true | inl _ => false end.

(** ** types/consultation.ts *)

Inductive ConsultationStatus := scheduled | ongoing | completed | cancelled.

Module TimeSlot.
Record t := mk {
  startTime : string;               (* "09:00" *)
  endTime : string;                 (* "09:30" *)
  isBooked : bool;
  consultationId : option string;   (* if booked *)
}.
End TimeSlot.

Module DoctorAvailability.
(** The document stored under [availability/<doctorId>_<date>].  The
    booking code reads [data()?.slots || []], so [slots] may be missing. *)
Record t := mk {
  id : string;
  doctorId : string;                (* reference to the doctors collection *)
  date : string;                    (* "2025-11-29" *)
  slots : option (list TimeSlot.t);
  createdAt : option Z;
  updatedAt : option Z;
}.
End DoctorAvailability.

Module ConsultationFields.
(** [Omit<Consultation, 'id'>]: what is written under
    [consultations/<id>]. *)
Record t := mk {
  patientId : string;
  patientName : string;
  doctorId : string;
  doctorName : string;
  doctorSpecialization : string;
  scheduledTime : Z;
  duration : Z;
  status : ConsultationStatus;
  consultationFee : Z;
  agoraChannelName : string;
  agoraToken : option string;
  symptoms : option string;
  notes : option string;
  doctorNotes : option string;
  prescriptionId : option string;
  createdAt : option Z;
  updatedAt : option Z;
}.

Definition withStatus (s : ConsultationStatus) (at_ : Z) (c : t) : t :=
  mk (patientId c) (patientName c) (doctorId c) (doctorName c)
     (doctorSpecialization c) (scheduledTime c) (duration c) s
     (consultationFee c) (agoraChannelName c) (agoraToken c) (symptoms c)
     (notes c) (doctorNotes c) (prescriptionId c) (createdAt c) (Some at_).
End ConsultationFields.

Module Consultation.
(** [{id: consultationId, ...consultation}] *)
Record t := mk { id : string; fields : ConsultationFields.t }.

Definition status (c : t) := ConsultationFields.status (fields c).
Definition duration (c : t) := ConsultationFields.duration (fields c).
Definition scheduledTime (c : t) := ConsultationFields.scheduledTime (fields c).
Definition doctorName (c : t) := ConsultationFields.doctorName (fields c).
Definition agoraChannelName (c : t) :=
  ConsultationFields.agoraChannelName (fields c).

(** [Partial<Consultation>]: [None] is a key the object does not have. *)
Record partial := mkPartial {
  id' : option string;
  patientId' : option string;
  patientName' : option string;
  doctorId' : option string;
  doctorName' : option string;
  doctorSpecialization' : option string;
  scheduledTime' : option Z;
  duration' : option Z;
  status' : option ConsultationStatus;
  consultationFee' : option Z;
  agoraChannelName' : option string;
  agoraToken' : option (option string);
  symptoms' : option (option string);
  notes' : option (option string);
  doctorNotes' : option (option string);
  prescriptionId' : option (option string);
  createdAt' : option (option Z);
  updatedAt' : option (option Z);
}.

(** [{...c, ...updates}] *)
Definition merge (c : t) (updates : partial) : t :=
  let f := fields c in
  mk (default (id c) (id' updates))
     (ConsultationFields.mk
        (default (ConsultationFields.patientId f) (patientId' updates))
        (default (ConsultationFields.patientName f) (patientName' updates))
        (default (ConsultationFields.doctorId f) (doctorId' updates))
        (default (ConsultationFields.doctorName f) (doctorName' updates))
        (default (ConsultationFields.doctorSpecialization f)
           (doctorSpecialization' updates))
        (default (ConsultationFields.scheduledTime f) (scheduledTime' updates))
        (default (ConsultationFields.duration f) (duration' updates))
        (default (ConsultationFields.status f) (status' updates))
        (default (ConsultationFields.consultationFee f) (consultationFee' updates))
        (default (ConsultationFields.agoraChannelName f) (agoraChannelName' updates))
        (default (ConsultationFields.agoraToken f) (agoraToken' updates))
        (default (ConsultationFields.symptoms f) (symptoms' updates))
        (default (ConsultationFields.notes f) (notes' updates))
        (default (ConsultationFields.doctorNotes f) (doctorNotes' updates))
        (default (ConsultationFields.prescriptionId f) (prescriptionId' updates))
        (default (ConsultationFields.createdAt f) (createdAt' updates))
        (default (ConsultationFields.updatedAt f) (updatedAt' updates))).
End Consultation.

Module BookingData.
Record t := mk {
  doctorId : string;
  doctorName : string;
  doctorSpecialization : string;
  patientId : string;
  patientName : string;
  scheduledTime : Z;
  consultationFee : Z;
  symptoms : option string;
  notes : option string;
}.
End BookingData.

(** ** The remote document collections

    Two collections matter to booking, [COLLECTIONS.AVAILABILITY] and
    [COLLECTIONS.CONSULTATIONS], each a map from document id to document. *)

Record Firestore := mkFirestore {
  AVAILABILITY : gmap string DoctorAvailability.t;
  CONSULTATIONS : gmap string ConsultationFields.t;
}.

(** *** Transactions

    Inside [runTransaction] the update function reads from the snapshot the
    transaction started on and buffers its writes; the substrate applies all
    buffered writes on commit, or none of them.  The substrate can fail
    where the function awaits it, at a read, and at the commit. *)

Inductive Write :=
| UpdateSlots (ref : string) (slots : list TimeSlot.t) (updatedAt : Z)
| SetConsultation (ref : string) (doc : ConsultationFields.t).

(** A read of the backend is delivered, or fails with an error of the
    backend's own (network, permissions). *)
Inductive ReadOutcome := Delivered | Unavailable (reason : string).

(** An update function: given the fate of its reads, the snapshot and the
    writes buffered so far, it throws or returns with more writes
    buffered. *)
Definition Tx (A : Type) : Type :=
  ReadOutcome -> Firestore -> list Write -> Result (A * list Write).

Definition tx_ret {A} (a : A) : Tx A := fun _ _ ws => inr (a, ws).

Definition tx_bind {A B} (m : Tx A) (k : A -> Tx B) : Tx B :=
  fun reads db ws =>
    match m reads db ws with
    | inl e => inl e
    | inr (a, ws') => k a reads db ws'
    end.

Definition tx_throw {A} (msg : string) : Tx A := fun _ _ _ => inl (mkError msg).

(** [await transaction.get(availabilityRef)]: rejects when the read fails;
    otherwise the snapshot, [None] when [!doc.exists]. *)
Definition tx_get (ref : string) : Tx (option DoctorAvailability.t) :=
  fun reads db ws =>
    match reads with
    | Delivered => inr (AVAILABILITY db !! ref, ws)
    | Unavailable reason => inl (mkError reason)
    end.

(** [transaction.update(availabilityRef, {slots, updatedAt})] *)
Definition tx_update (ref : string) (slots : list TimeSlot.t) (at_ : Z) : Tx unit :=
  fun _ _ ws => inr (tt, ws ++ [UpdateSlots ref slots at_]).

(** Whether the object [bookConsultation] hands to [transaction.set] has
    a key whose value is [undefined].  Its literal lists [symptoms] and
    [notes] with the values of the booking data, which may be [undefined];
    the optional keys [agoraToken], [doctorNotes] and [prescriptionId] it
    does not list, and every other key has a value. *)
Definition hasUndefinedField (doc : ConsultationFields.t) : bool :=
  match ConsultationFields.symptoms doc, ConsultationFields.notes doc with
  | Some _, Some _ => false
  | _, _ => true
  end.

Definition UnsupportedFieldValue : string := "Unsupported field value: undefined".

(** [transaction.set(consultationRef, consultation)]: the client refuses
    a document with an [undefined] field value by throwing, and buffers
    the write otherwise. *)
Definition tx_set (ref : string) (doc : ConsultationFields.t) : Tx unit :=
  fun _ _ ws =>
    if hasUndefinedField doc then inl (mkError UnsupportedFieldValue)
    else inr (tt, ws ++ [SetConsultation ref doc]).

Declare Scope tx_scope.
Delimit Scope tx_scope with tx.
Notation "'await' x <- m ; k" := (tx_bind m (fun x => k))
  (at level 10, x name, m at level 100, k at level 200) : tx_scope.
Notation "'perform' m ; k" := (tx_bind m (fun _ => k))
  (at level 10, m at level 100, k at level 200) : tx_scope.

(** One buffered write applied to the collections.  An [update] of a
    document that does not exist is refused by the backend. *)
Definition apply_write (db : Firestore) (w : Write) : option Firestore :=
  match w with
  | UpdateSlots ref slots at_ =>
      match AVAILABILITY db !! ref with
      | None => None
      | Some doc =>
          let doc' := DoctorAvailability.mk (DoctorAvailability.id doc)
                        (DoctorAvailability.doctorId doc)
                        (DoctorAvailability.date doc) (Some slots)
                        (DoctorAvailability.createdAt doc) (Some at_) in
          Some (mkFirestore (<[ref := doc']> (AVAILABILITY db)) (CONSULTATIONS db))
      end
  | SetConsultation ref doc =>
      Some (mkFirestore (AVAILABILITY db) (<[ref := doc]> (CONSULTATIONS db)))
  end.

Fixpoint apply_writes (db : Firestore) (ws : list Write) : option Firestore :=
  match ws with
  | [] => Some db
  | w :: ws' =>
      match apply_write db w with
      | None => None
      | Some db' => apply_writes db' ws'
      end
  end.

(** What the substrate does with a transaction that reached its commit:
    it commits, or it gives up (retries exhausted, network) and rejects
    with an error of its own. *)
Inductive CommitOutcome := Committed | Aborted (reason : string).

(** [runTransaction(updateFunction)] over a substrate whose reads and
    commit have the given fates.  The update function runs first, and a
    read that fails rejects inside it.  When the function throws, the
    transaction is abandoned with that error, no commit is attempted and
    nothing is written; when it returns, the substrate commits every
    buffered write, or rejects and writes none. *)
Definition runTransaction {A} (reads : ReadOutcome) (outcome : CommitOutcome)
    (body : Tx A) (db : Firestore) : Result A * Firestore :=
  match body reads db [] with
  | inl e => (inl e, db)
  | inr (a, ws) =>
      match outcome with
      | Aborted reason => (inl (mkError reason), db)
      | Committed =>
          match apply_writes db ws with
          | Some db' => (inr a, db')
          | None => (inl (mkError "[firestore/not-found]"), db)
          end
      end
  end.

(** ** consultationService.ts *)

(** [Array.prototype.findIndex]: the first index whose element satisfies
    [p], or [-1]. *)
Fixpoint findIndex_from {A} (p : A -> bool) (l : list A) (i : Z) : Z :=
  match l with
  | [] => -1
  | x :: l' => if p x then i else findIndex_from p l' (i + 1)
  end.

Definition findIndex {A} (p : A -> bool) (l : list A) : Z := findIndex_from p l 0.

Definition AvailabilityNotFound : string := "Availability not found".
Definition SlotNotFound : string := "Time slot not found".
Definition SlotAlreadyBooked : string := "This slot has already been booked".
Definition BookingFailed : string :=
  "Failed to book consultation. Please try again.".

(** [`${doctorId}_${date}`] *)
Definition availabilityDocId (doctorId date : string) : string :=
  doctorId +:+ "_" +:+ date.

(** What the environment supplies to one call of [bookConsultation]: the
    identifier [collection(...).doc()] allocates, the clock, and the
    fates of the transaction's read and of its commit. *)
Record BookingEnv := mkBookingEnv {
  newDocId : string;
  now : Z;
  txRead : ReadOutcome;
  commit : CommitOutcome;
}.

Definition markBooked (consultationId : string) (s : TimeSlot.t) : TimeSlot.t :=
  TimeSlot.mk (TimeSlot.startTime s) (TimeSlot.endTime s) true (Some consultationId).

Definition bookingTransaction (env : BookingEnv) (consultationId : string)
    (consultation : ConsultationFields.t) (bookingData : BookingData.t)
    (selectedSlot : TimeSlot.t) (selectedDate : string) : Tx unit :=
  let availabilityRef :=
    availabilityDocId (BookingData.doctorId bookingData) selectedDate in
  (await availabilityDoc <- tx_get availabilityRef;
  match availabilityDoc with
  | None => tx_throw AvailabilityNotFound
  | Some doc =>
      let slots := default [] (DoctorAvailability.slots doc) in
      let slotIndex :=
        findIndex (fun s => String.eqb (TimeSlot.startTime s)
                                       (TimeSlot.startTime selectedSlot)) slots in
      if slotIndex =? -1 then tx_throw SlotNotFound
      else
        match slots !! Z.to_nat slotIndex with
        | None => tx_throw "Cannot read properties of undefined"
        | Some slot =>
            if TimeSlot.isBooked slot then tx_throw SlotAlreadyBooked
            else
              let slots' :=
                <[Z.to_nat slotIndex := markBooked consultationId slot]> slots in
              perform tx_update availabilityRef slots' (now env);
              tx_set consultationId consultation
        end
  end)%tx.

Definition newConsultation (env : BookingEnv) (bookingData : BookingData.t)
    : ConsultationFields.t :=
  ConsultationFields.mk
    (BookingData.patientId bookingData)
    (BookingData.patientName bookingData)
    (BookingData.doctorId bookingData)
    (BookingData.doctorName bookingData)
    (BookingData.doctorSpecialization bookingData)
    (BookingData.scheduledTime bookingData)
    30
    scheduled
    (BookingData.consultationFee bookingData)
    ("consultation_" +:+ newDocId env)
    None
    (BookingData.symptoms bookingData)
    (BookingData.notes bookingData)
    None
    None
    (Some (now env))
    (Some (now env)).

Definition bookConsultation (env : BookingEnv) (bookingData : BookingData.t)
    (selectedSlot : TimeSlot.t) (selectedDate : string) (db : Firestore)
    : Result Consultation.t * Firestore :=
  let consultationId := newDocId env in
  let consultation := newConsultation env bookingData in
  match runTransaction (txRead env) (commit env)
          (bookingTransaction env consultationId consultation bookingData
             selectedSlot selectedDate) db with
  | (inr _, db') => (inr (Consultation.mk consultationId consultation), db')
  | (inl error, db') =>
      if String.eqb (message error) SlotAlreadyBooked
      then (inl error, db')
      else (inl (mkError BookingFailed), db')
  end.

(** [updateConsultationStatus]: a single [update({status, updatedAt})] on
    [consultations/<id>], with no condition on the stored status.  The
    backend refuses an update of a missing document; any failure surfaces
    as one fixed error. *)
Definition StatusUpdateFailed : string := "Failed to update consultation status.".
Definition CancelFailed : string := "Failed to cancel consultation.".

Definition updateConsultationStatus (at_ : Z) (outcome : CommitOutcome)
    (consultationId : string) (status : ConsultationStatus) (db : Firestore)
    : Result unit * Firestore :=
  match outcome, CONSULTATIONS db !! consultationId with
  | Committed, Some c =>
      (inr tt,
       mkFirestore (AVAILABILITY db)
         (<[consultationId := ConsultationFields.withStatus status at_ c]>
            (CONSULTATIONS db)))
  | _, _ => (inl (mkError StatusUpdateFailed), db)
  end.

Definition cancelConsultation (at_ : Z) (outcome : CommitOutcome)
    (consultationId : string) (db : Firestore) : Result unit * Firestore :=
  match updateConsultationStatus at_ outcome consultationId cancelled db with
  | (inr _, db') => (inr tt, db')
  | (inl _, db') => (inl (mkError CancelFailed), db')
  end.

(** *** Sequences of requests

    The substrate serialises transactions; a history of the remote
    collections is a list of requests run one after another. *)

Record BookingAttempt := mkAttempt {
  attemptEnv : BookingEnv;
  attemptData : BookingData.t;
  attemptSlot : TimeSlot.t;
  attemptDate : string;
}.

Definition attempt (a : BookingAttempt) (db : Firestore)
    : Result Consultation.t * Firestore :=
  bookConsultation (attemptEnv a) (attemptData a) (attemptSlot a) (attemptDate a) db.

Fixpoint runAttempts (attempts : list BookingAttempt) (db : Firestore)
    : list (Result Consultation.t) * Firestore :=
  match attempts with
  | [] => ([], db)
  | a :: rest =>
      let '(r, db') := attempt a db in
      let '(rs, db'') := runAttempts rest db' in
      (r :: rs, db'')
  end.


Inductive StatusOp :=
| UpdateStatus (at_ : Z) (outcome : CommitOutcome) (consultationId : string)
    (status : ConsultationStatus)
| Cancel (at_ : Z) (outcome : CommitOutcome) (consultationId : string).

Definition statusOp (op : StatusOp) (db : Firestore) : Firestore :=
  match op with
  | UpdateStatus at_ outcome cid s => snd (updateConsultationStatus at_ outcome cid s db)
  | Cancel at_ outcome cid => snd (cancelConsultation at_ outcome cid db)
  end.

Definition runStatusOps (ops : list StatusOp) (db : Firestore) : Firestore :=
  fold_left (fun db op => statusOp op db) ops db.

Definition statusOf (db : Firestore) (consultationId : string)
    : option ConsultationStatus :=
  ConsultationFields.status <$> CONSULTATIONS db !! consultationId.

Definition isTerminal (s : ConsultationStatus) : bool :=
  match s with completed | cancelled => true | scheduled | ongoing => false end.

(** The status the operation asks the backend to store. *)
Definition requestedStatus (op : StatusOp) : ConsultationStatus :=
  match op with
  | UpdateStatus _ _ _ s => s
  | Cancel _ _ _ => cancelled
  end.

Inductive Request :=
| Book (a : BookingAttempt)
| Status (op : StatusOp).

Definition request (r : Request) (db : Firestore) : Firestore :=
  match r with
  | Book a => snd (attempt a db)
  | Status op => statusOp op db
  end.

(** The slot the booking transaction locates: the first slot of the day's
    record whose start time is the requested one. *)
Definition locateSlot (db : Firestore) (doctorId date startTime : string)
    : option TimeSlot.t :=
  match AVAILABILITY db !! availabilityDocId doctorId date with
  | None => None
  | Some doc =>
      let slots := default [] (DoctorAvailability.slots doc) in
      let i := findIndex (fun s => String.eqb (TimeSlot.startTime s) startTime) slots in
      if i =? -1 then None else slots !! Z.to_nat i
  end.

(** The consultations that hold the slot [(doctorId, date, startTime)]:
    a consultation document exists and a booked slot with that start time
    in the day's record carries its identifier. *)
Definition holder (db : Firestore) (startTime : string) (s : TimeSlot.t)
    : option string :=
  if String.eqb (TimeSlot.startTime s) startTime && TimeSlot.isBooked s
  then match TimeSlot.consultationId s with
       | Some c => if decide (is_Some (CONSULTATIONS db !! c)) then Some c else None
       | None => None
       end
  else None.

Definition holders (db : Firestore) (doctorId date startTime : string)
    : list string :=
  match AVAILABILITY db !! availabilityDocId doctorId date with
  | None => []
  | Some doc => omap (holder db startTime) (default [] (DoctorAvailability.slots doc))
  end.

(** No slot of any availability record is booked: the records as the
    doctors publish them. *)
Definition unbooked (db : Firestore) : Prop :=
  ∀ ref doc s,
    AVAILABILITY db !! ref = Some doc →
    s ∈ default [] (DoctorAvailability.slots doc) →
    TimeSlot.isBooked s = false.

Inductive reachable : Firestore → Prop :=
| reachable_init db : unbooked db → reachable db
| reachable_step db r : reachable db → reachable (request r db).

(** ** notificationService.ts *)

Module LocalNotification.
Record t := mk {
  channelId : string;
  id : string;
  title : string;
  message : string;
  date : Z;
  consultationId : string;
  type : string;
}.
End LocalNotification.

(** [reminderTime.setHours(reminderTime.getHours() - 1)] works on the
    wall clock of the device's time zone: the result is the instant whose
    local reading is one hour less.  That is 3600000 ms earlier, except
    across a change of the zone's offset (daylight saving), where it can be
    the same instant or two hours earlier.  The computation is the
    device's, so it is an argument of the functions below: [hourBack t] is
    the epoch value of the date [t] after that call. *)
Definition consultationReminder (hourBack : Z → Z) (consultation : Consultation.t)
    : LocalNotification.t :=
  LocalNotification.mk
    "consultation-reminders"
    ("consultation-reminder-" +:+ Consultation.id consultation)
    "Consultation Reminder"
    ("Your consultation with Dr. " +:+ Consultation.doctorName consultation
       +:+ " starts in 1 hour")
    (hourBack (Consultation.scheduledTime consultation))
    (Consultation.id consultation)
    "reminder".

(** [scheduleConsultationReminder(consultation)] at clock [now]; the state
    is the list of notifications handed to the OS scheduler so far. *)
Definition scheduleConsultationReminder (hourBack : Z → Z) (now : Z)
    (consultation : Consultation.t) (scheduled : list LocalNotification.t)
    : list LocalNotification.t :=
  let reminderTime := hourBack (Consultation.scheduledTime consultation) in
  if reminderTime >? now
  then scheduled ++ [consultationReminder hourBack consultation]
  else scheduled.

(** ** store/index.ts: the application state cache *)

Module Medicine.
Record t := mk {
  id : string;
  name : string;
  description : string;
  ingredients : list string;
  uses : string;
  sideEffects : string;
  dosage : string;
  warnings : string;
  timestamp : Z;
  isFavorite : option bool;
}.

(** [{...medicine, isFavorite: true}] *)
Definition asFavorite (m : t) : t :=
  mk (id m) (name m) (description m) (ingredients m) (uses m) (sideEffects m)
     (dosage m) (warnings m) (timestamp m) (Some true).
End Medicine.

Inductive Frequency := daily | twice | thrice | custom.

Module Reminder.
Record t := mk {
  id : string;
  medicineName : string;
  time : Z;
  frequency : Frequency;
  notes : option string;
  enabled : bool;
}.

(** [Partial<Reminder>]: [None] is a key the object does not have. *)
Record partial := mkPartial {
  id' : option string;
  medicineName' : option string;
  time' : option Z;
  frequency' : option Frequency;
  notes' : option (option string);
  enabled' : option bool;
}.

(** [{...r, ...updates}] *)
Definition merge (r : t) (updates : partial) : t :=
  mk (default (id r) (id' updates))
     (default (medicineName r) (medicineName' updates))
     (default (time r) (time' updates))
     (default (frequency r) (frequency' updates))
     (default (notes r) (notes' updates))
     (default (enabled r) (enabled' updates)).
End Reminder.

Module User.
Record t := mk {
  id : string;                      (* Firebase Auth UID *)
  name : string;
  email : string;
  phone : string;
  profileImage : option string;
  dateOfBirth : option Z;
  gender : option string;
  bloodGroup : option string;
  allergies : option (list string);
  medicalHistory : option (list string);
  createdAt : option Z;
  fcmToken : option string;
}.
End User.

Module Doctor.
Record t := mk {
  id : string;
  name : string;
  email : string;
  phone : string;
  specialization : string;
  experience : Z;
  profileImage : string;
  qualifications : list string;
  rating : Z;
  totalConsultations : Z;
  consultationFee : Z;
  languages : list string;
  verified : bool;
  createdAt : option Z;
  updatedAt : option Z;
}.
End Doctor.

Module Medication.
Record t := mk {
  name : string;
  dosage : string;
  frequency : string;
  duration : string;
  instructions : string;
}.
End Medication.

Module Prescription.
Record t := mk {
  id : string;
  consultationId : string;
  patientId : string;
  doctorId : string;
  doctorName : string;
  medications : list Medication.t;
  diagnosis : string;
  advice : string;
  followUpDate : option Z;
  prescriptionImageUrl : option string;
  createdAt : option Z;
}.
End Prescription.

Module MessageType.
Inductive t := text | image | prescription.
End MessageType.

Module SenderType.
Inductive t := patient | doctor.
End SenderType.

Module ChatMessage.
Record t := mk {
  id : string;
  consultationId : string;
  senderId : string;
  senderName : string;
  senderType : SenderType.t;
  message : string;
  messageType : MessageType.t;
  imageUrl : option string;
  timestamp : Z;
  read : bool;
}.
End ChatMessage.

(** The data part of [AppState]. *)
Record AppState := mkAppState {
  isDarkMode : bool;
  searchHistory : list Medicine.t;
  favorites : list Medicine.t;
  reminders : list Reminder.t;
  isLoading : bool;
  currentUser : option User.t;
  doctors : list Doctor.t;
  consultations : list Consultation.t;
  activeConsultation : option Consultation.t;
  chatMessages : gmap string (list ChatMessage.t);
  prescriptions : list Prescription.t;
}.

Definition initialState : AppState :=
  mkAppState false [] [] [] false None [] [] None ∅ [].

(** The argument of zustand's [set]: an object with some of the keys. *)
Record Patch := mkPatch {
  isDarkMode' : option bool;
  searchHistory' : option (list Medicine.t);
  favorites' : option (list Medicine.t);
  reminders' : option (list Reminder.t);
  isLoading' : option bool;
  currentUser' : option (option User.t);
  doctors' : option (list Doctor.t);
  consultations' : option (list Consultation.t);
  activeConsultation' : option (option Consultation.t);
  chatMessages' : option (gmap string (list ChatMessage.t));
  prescriptions' : option (list Prescription.t);
}.

Definition noPatch : Patch :=
  mkPatch None None None None None None None None None None None.

(** [set(partial)] merges shallowly: keys present overwrite, others stay. *)
Definition shallowMerge (p : Patch) (s : AppState) : AppState :=
  mkAppState
    (default (isDarkMode s) (isDarkMode' p))
    (default (searchHistory s) (searchHistory' p))
    (default (favorites s) (favorites' p))
    (default (reminders s) (reminders' p))
    (default (isLoading s) (isLoading' p))
    (default (currentUser s) (currentUser' p))
    (default (doctors s) (doctors' p))
    (default (consultations s) (consultations' p))
    (default (activeConsultation s) (activeConsultation' p))
    (default (chatMessages s) (chatMessages' p))
    (default (prescriptions s) (prescriptions' p)).

(** *** AsyncStorage

    A stored string matters through what [JSON.parse] makes of it: the text
    [JSON.stringify a] of a value, the empty string, or a non-empty text on
    which [JSON.parse] throws.  A key holds no string ([Null]), holds one,
    or cannot be read ([Rejects]: [getItem] rejects). *)

Inductive Text (A : Type) := Json (a : A) | Empty | Malformed.
Arguments Json {A} a.
Arguments Empty {A}.
Arguments Malformed {A}.

Inductive Item (A : Type) := Null | Value (text : Text A) | Rejects.
Arguments Null {A}.
Arguments Value {A} text.
Arguments Rejects {A}.

Record AsyncStorage := mkAsyncStorage {
  theme_ : Item bool;
  searchHistory_ : Item (list Medicine.t);
  favorites_ : Item (list Medicine.t);
  reminders_ : Item (list Reminder.t);
  currentUser_ : Item User.t;
  doctors_ : Item (list Doctor.t);
  doctorsCachedAt_ : Item Z;
  consultations_ : Item (list Consultation.t);
  prescriptions_ : Item (list Prescription.t);
}.

(** A storage key, by the cell it names. *)
Record Key (A : Type) := mkKey {
  cell : AsyncStorage → Item A;
  put : Item A → AsyncStorage → AsyncStorage;
}.
Arguments cell {A} k.
Arguments put {A} k.

Definition themeKey : Key bool :=
  mkKey _ theme_ (fun x d => mkAsyncStorage x (searchHistory_ d) (favorites_ d)
    (reminders_ d) (currentUser_ d) (doctors_ d) (doctorsCachedAt_ d)
    (consultations_ d) (prescriptions_ d)).
Definition searchHistoryKey : Key (list Medicine.t) :=
  mkKey _ searchHistory_ (fun x d => mkAsyncStorage (theme_ d) x (favorites_ d)
    (reminders_ d) (currentUser_ d) (doctors_ d) (doctorsCachedAt_ d)
    (consultations_ d) (prescriptions_ d)).
Definition favoritesKey : Key (list Medicine.t) :=
  mkKey _ favorites_ (fun x d => mkAsyncStorage (theme_ d) (searchHistory_ d) x
    (reminders_ d) (currentUser_ d) (doctors_ d) (doctorsCachedAt_ d)
    (consultations_ d) (prescriptions_ d)).
Definition remindersKey : Key (list Reminder.t) :=
  mkKey _ reminders_ (fun x d => mkAsyncStorage (theme_ d) (searchHistory_ d)
    (favorites_ d) x (currentUser_ d) (doctors_ d) (doctorsCachedAt_ d)
    (consultations_ d) (prescriptions_ d)).
Definition currentUserKey : Key User.t :=
  mkKey _ currentUser_ (fun x d => mkAsyncStorage (theme_ d) (searchHistory_ d)
    (favorites_ d) (reminders_ d) x (doctors_ d) (doctorsCachedAt_ d)
    (consultations_ d) (prescriptions_ d)).
Definition doctorsKey : Key (list Doctor.t) :=
  mkKey _ doctors_ (fun x d => mkAsyncStorage (theme_ d) (searchHistory_ d)
    (favorites_ d) (reminders_ d) (currentUser_ d) x (doctorsCachedAt_ d)
    (consultations_ d) (prescriptions_ d)).
Definition doctorsCachedAtKey : Key Z :=
  mkKey _ doctorsCachedAt_ (fun x d => mkAsyncStorage (theme_ d) (searchHistory_ d)
    (favorites_ d) (reminders_ d) (currentUser_ d) (doctors_ d) x
    (consultations_ d) (prescriptions_ d)).
Definition consultationsKey : Key (list Consultation.t) :=
  mkKey _ consultations_ (fun x d => mkAsyncStorage (theme_ d) (searchHistory_ d)
    (favorites_ d) (reminders_ d) (currentUser_ d) (doctors_ d)
    (doctorsCachedAt_ d) x (prescriptions_ d)).
Definition prescriptionsKey : Key (list Prescription.t) :=
  mkKey _ prescriptions_ (fun x d => mkAsyncStorage (theme_ d) (searchHistory_ d)
    (favorites_ d) (reminders_ d) (currentUser_ d) (doctors_ d)
    (doctorsCachedAt_ d) (consultations_ d) x).

Definition emptyStorage : AsyncStorage :=
  mkAsyncStorage Null Null Null Null Null Null Null Null Null.

(** *** The store monad: in-memory state, storage, and rejection *)

Record World := mkWorld { mem : AppState; disk : AsyncStorage }.

Definition Store (A : Type) : Type := World → Result A * World.

Definition ret {A} (a : A) : Store A := fun w => (inr a, w).

Definition bind {A B} (m : Store A) (k : A → Store B) : Store B :=
  fun w =>
    match m w with
    | (inl e, w') => (inl e, w')
    | (inr a, w') => k a w'
    end.

Definition throw {A} (msg : string) : Store A := fun w => (inl (mkError msg), w).

(** [try { body } catch (error) { handler(error) }] *)
Definition try_catch {A} (body : Store A) (handler : Error → Store A) : Store A :=
  fun w =>
    match body w with
    | (inl e, w') => handler e w'
    | (inr a, w') => (inr a, w')
    end.

Declare Scope store_scope.
Delimit Scope store_scope with store.
Notation "'await' x <- m ; k" := (bind m (fun x => k))
  (at level 10, x name, m at level 100, k at level 200) : store_scope.
Notation "'perform' m ; k" := (bind m (fun _ => k))
  (at level 10, m at level 100, k at level 200) : store_scope.

Definition get : Store AppState := fun w => (inr (mem w), w).

Definition set (p : Patch) : Store unit :=
  fun w => (inr tt, mkWorld (shallowMerge p (mem w)) (disk w)).

(** [AsyncStorage.getItem(key)]: the string, or [None] for [null]. *)
Definition getItem {A} (key : Key A) : Store (option (Text A)) :=
  fun w =>
    match cell key (disk w) with
    | Null => (inr None, w)
    | Value text => (inr (Some text), w)
    | Rejects => (inl (mkError "AsyncStorage: read failed"), w)
    end.

(** Whether AsyncStorage carries out a write or rejects it (storage full,
    I/O error). *)
Inductive WriteOutcome := Written | Refused (reason : string).

(** [AsyncStorage.setItem(key, value)] *)
Definition setItem {A} (outcome : WriteOutcome) (key : Key A) (text : Text A)
    : Store unit :=
  fun w =>
    match outcome with
    | Written => (inr tt, mkWorld (mem w) (put key (Value text) (disk w)))
    | Refused reason => (inl (mkError reason), w)
    end.

(** [AsyncStorage.removeItem(key)] *)
Definition removeItem {A} (outcome : WriteOutcome) (key : Key A) : Store unit :=
  fun w =>
    match outcome with
    | Written => (inr tt, mkWorld (mem w) (put key Null (disk w)))
    | Refused reason => (inl (mkError reason), w)
    end.

Definition JSON_stringify {A} (a : A) : Text A := Json a.

(** [new Date().toISOString()], stored as it is and never read back by the
    store; the text is kept as the instant it denotes. *)
Definition toISOString (at_ : Z) : Text Z := Json at_.

Definition JSON_parse {A} (text : Text A) : Store A :=
  match text with
  | Json a => ret a
  | Empty | Malformed => throw "SyntaxError: JSON Parse error"
  end.

(** Truthiness of what [getItem] resolved to: [null] and [""] are falsy. *)
Definition truthy {A} (x : option (Text A)) : bool :=
  match x with
  | None | Some Empty => false
  | Some (Json _) | Some Malformed => true
  end.

(** [x ? JSON.parse(x) : fallback] *)
Definition parseOr {A B} (x : option (Text A)) (found : A → B) (fallback : B)
    : Store B :=
  match x with
  | Some text =>
      if truthy x then (await a <- JSON_parse text; ret (found a))%store
      else ret fallback
  | None => ret fallback
  end.

(** *** The actions

    An action that awaits a write to storage takes the fate of that write
    as its first argument; it has called [set] before, so a refused write
    rejects the action with the in-memory state already changed. *)

Definition toggleTheme (write : WriteOutcome) : Store unit :=
  (await s <- get;
   let newTheme := negb (isDarkMode s) in
   perform set (mkPatch (Some newTheme) None None None None None None None None None None);
   setItem write themeKey (JSON_stringify newTheme))%store.

(** [m.id !== medicine.id] *)
Definition otherMedicine (medicine m : Medicine.t) : bool :=
  negb (String.eqb (Medicine.id m) (Medicine.id medicine)).

Definition HISTORY_LIMIT : nat := 50.

Definition addToHistory (write : WriteOutcome) (medicine : Medicine.t) : Store unit :=
  (await s <- get;
   let history := searchHistory s in
   let filtered := List.filter (otherMedicine medicine) history in
   let newHistory := take HISTORY_LIMIT (medicine :: filtered) in
   perform set (mkPatch None (Some newHistory) None None None None None None None None None);
   setItem write searchHistoryKey (JSON_stringify newHistory))%store.

Definition clearHistory (write : WriteOutcome) : Store unit :=
  (perform set (mkPatch None (Some []) None None None None None None None None None);
   removeItem write searchHistoryKey)%store.

Definition toggleFavorite (write : WriteOutcome) (medicine : Medicine.t)
    : Store unit :=
  (await s <- get;
   let favorites := favorites s in
   let index :=
     findIndex (fun f => String.eqb (Medicine.id f) (Medicine.id medicine)) favorites in
   let newFavorites :=
     if index >=? 0
     then List.filter (otherMedicine medicine) favorites
     else favorites ++ [Medicine.asFavorite medicine] in
   perform set (mkPatch None None (Some newFavorites) None None None None None None None None);
   setItem write favoritesKey (JSON_stringify newFavorites))%store.

Definition addReminder (write : WriteOutcome) (reminder : Reminder.t) : Store unit :=
  (await s <- get;
   let reminders := reminders s ++ [reminder] in
   perform set (mkPatch None None None (Some reminders) None None None None None None None);
   setItem write remindersKey (JSON_stringify reminders))%store.

Definition updateReminder (write : WriteOutcome) (id : string)
    (updates : Reminder.partial) : Store unit :=
  (await s <- get;
   let reminders :=
     map (fun r => if String.eqb (Reminder.id r) id then Reminder.merge r updates else r)
         (reminders s) in
   perform set (mkPatch None None None (Some reminders) None None None None None None None);
   setItem write remindersKey (JSON_stringify reminders))%store.

Definition deleteReminder (write : WriteOutcome) (id : string) : Store unit :=
  (await s <- get;
   let reminders :=
     List.filter (fun r => negb (String.eqb (Reminder.id r) id)) (reminders s) in
   perform set (mkPatch None None None (Some reminders) None None None None None None None);
   setItem write remindersKey (JSON_stringify reminders))%store.

Definition setIsLoading (loading : bool) : Store unit :=
  set (mkPatch None None None None (Some loading) None None None None None None).

Definition setCurrentUser (write : WriteOutcome) (user : option User.t)
    : Store unit :=
  (perform set (mkPatch None None None None None (Some user) None None None None None);
   match user with
   | Some u => setItem write currentUserKey (JSON_stringify u)
   | None => removeItem write currentUserKey
   end)%store.

Definition setDoctors (write writeCachedAt : WriteOutcome) (at_ : Z)
    (doctors : list Doctor.t) : Store unit :=
  (perform set (mkPatch None None None None None None (Some doctors) None None None None);
   perform setItem write doctorsKey (JSON_stringify doctors);
   setItem writeCachedAt doctorsCachedAtKey (toISOString at_))%store.

Definition setConsultations (write : WriteOutcome)
    (consultations : list Consultation.t) : Store unit :=
  (perform set (mkPatch None None None None None None None (Some consultations) None None None);
   setItem write consultationsKey (JSON_stringify consultations))%store.

Definition addConsultation (write : WriteOutcome) (consultation : Consultation.t)
    : Store unit :=
  (await s <- get;
   let consultations := consultations s ++ [consultation] in
   perform set (mkPatch None None None None None None None (Some consultations) None None None);
   setItem write consultationsKey (JSON_stringify consultations))%store.

Definition updateConsultation (write : WriteOutcome) (id : string)
    (updates : Consultation.partial) : Store unit :=
  (await s <- get;
   let consultations :=
     map (fun c => if String.eqb (Consultation.id c) id
                   then Consultation.merge c updates else c)
         (consultations s) in
   perform set (mkPatch None None None None None None None (Some consultations) None None None);
   setItem write consultationsKey (JSON_stringify consultations))%store.

Definition setActiveConsultation (consultation : option Consultation.t) : Store unit :=
  set (mkPatch None None None None None None None None (Some consultation) None None).

Definition setChatMessages (consultationId : string) (messages : list ChatMessage.t)
    : Store unit :=
  (await s <- get;
   set (mkPatch None None None None None None None None None
          (Some (<[consultationId := messages]> (chatMessages s))) None))%store.

(** [chatMessages] is a plain object, so [chatMessages[consultationId]]
    finds the object's own property, or else a property every object
    inherits from [Object.prototype], or else nothing. *)
Definition inheritedKeys : list string :=
  ["constructor"; "hasOwnProperty"; "isPrototypeOf"; "propertyIsEnumerable";
   "toLocaleString"; "toString"; "valueOf"; "__proto__"; "__defineGetter__";
   "__defineSetter__"; "__lookupGetter__"; "__lookupSetter__"].

Inductive Property (V : Type) := Own (value : V) | Inherited | Undefined.
Arguments Own {V} value.
Arguments Inherited {V}.
Arguments Undefined {V}.

Definition getProperty {V} (object : gmap string V) (key : string) : Property V :=
  match object !! key with
  | Some value => Own value
  | None => if bool_decide (key ∈ inheritedKeys) then Inherited else Undefined
  end.

(** [addChatMessage]: an inherited property is a function or the
    prototype object, truthy and not iterable, so
    [[...existingMessages, message]] throws before [set] is called. *)
Definition addChatMessage (consultationId : string) (message : ChatMessage.t)
    : Store unit :=
  (await s <- get;
   let append (existingMessages : list ChatMessage.t) :=
     set (mkPatch None None None None None None None None None
            (Some (<[consultationId := existingMessages ++ [message]]>
                     (chatMessages s)))
            None) in
   match getProperty (chatMessages s) consultationId with
   | Own existingMessages => append existingMessages
   | Undefined => append []
   | Inherited => throw "TypeError: existingMessages is not iterable"
   end)%store.

Definition setPrescriptions (write : WriteOutcome)
    (prescriptions : list Prescription.t) : Store unit :=
  (perform set (mkPatch None None None None None None None None None None (Some prescriptions));
   setItem write prescriptionsKey (JSON_stringify prescriptions))%store.

Definition addPrescription (write : WriteOutcome) (prescription : Prescription.t)
    : Store unit :=
  (await s <- get;
   let prescriptions := prescriptions s ++ [prescription] in
   perform set (mkPatch None None None None None None None None None None (Some prescriptions));
   setItem write prescriptionsKey (JSON_stringify prescriptions))%store.

(** [hydrate]: the eight reads of [Promise.all], then one [set] whose
    argument parses every value read; the whole body sits in one [try]
    whose handler logs and returns. *)
Definition hydrateBody : Store unit :=
  (await theme <- getItem themeKey;
   await history <- getItem searchHistoryKey;
   await favorites <- getItem favoritesKey;
   await reminders <- getItem remindersKey;
   await currentUser <- getItem currentUserKey;
   await doctors <- getItem doctorsKey;
   await consultations <- getItem consultationsKey;
   await prescriptions <- getItem prescriptionsKey;
   await isDarkMode <- parseOr theme id false;
   await searchHistory <- parseOr history id [];
   await favorites <- parseOr favorites id [];
   await reminders <- parseOr reminders id [];
   await currentUser <- parseOr currentUser Some None;
   await doctors <- parseOr doctors id [];
   await consultations <- parseOr consultations id [];
   await prescriptions <- parseOr prescriptions id [];
   set (mkPatch (Some isDarkMode) (Some searchHistory) (Some favorites)
          (Some reminders) None (Some currentUser) (Some doctors)
          (Some consultations) None None (Some prescriptions)))%store.

Definition hydrate : Store unit :=
  try_catch hydrateBody (fun error => ret tt).

(** Running a list of actions, ignoring rejections as the screens do. *)
Definition exec (action : Store unit) (w : World) : World := snd (action w).

Definition history (w : World) : list Medicine.t := searchHistory (mem w).

(** The identities present in a collection of medicines. *)
Definition identities (l : list Medicine.t) : list string := map Medicine.id l.

(** ** The outcomes of a booking

    [bookConsultation] as a relation: the seven ways the call can end,
    each with the error it surfaces and the collections it leaves. *)

Section BookOutcome.
Variables (env : BookingEnv) (bookingData : BookingData.t)
          (selectedSlot : TimeSlot.t) (selectedDate : string) (db : Firestore).

Let ref := availabilityDocId (BookingData.doctorId bookingData) selectedDate.
Let wanted (s : TimeSlot.t) :=
  String.eqb (TimeSlot.startTime s) (TimeSlot.startTime selectedSlot).

(** The collections after the commit that books slot [i] of [doc]. *)
Definition committed (doc : DoctorAvailability.t) (i : nat) (s : TimeSlot.t)
    : Firestore :=
  mkFirestore
    (<[ref := DoctorAvailability.mk (DoctorAvailability.id doc)
                (DoctorAvailability.doctorId doc)
                (DoctorAvailability.date doc)
                (Some (<[i := markBooked (newDocId env) s]>
                         (default [] (DoctorAvailability.slots doc))))
                (DoctorAvailability.createdAt doc)
                (Some (now env))]> (AVAILABILITY db))
    (<[newDocId env := newConsultation env bookingData]> (CONSULTATIONS db)).

Inductive BookOutcome : Result Consultation.t * Firestore → Prop :=
| ReadFailed reason :
    txRead env = Unavailable reason →
    BookOutcome
      (inl (mkError (if String.eqb reason SlotAlreadyBooked
                     then reason else BookingFailed)), db)
| NoAvailability :
    txRead env = Delivered →
    AVAILABILITY db !! ref = None →
    BookOutcome (inl (mkError BookingFailed), db)
| NoSlot doc :
    txRead env = Delivered →
    AVAILABILITY db !! ref = Some doc →
    findIndex wanted (default [] (DoctorAvailability.slots doc)) = -1 →
    BookOutcome (inl (mkError BookingFailed), db)
| Taken doc (i : nat) s :
    txRead env = Delivered →
    AVAILABILITY db !! ref = Some doc →
    findIndex wanted (default [] (DoctorAvailability.slots doc)) = Z.of_nat i →
    default [] (DoctorAvailability.slots doc) !! i = Some s →
    TimeSlot.isBooked s = true →
    BookOutcome (inl (mkError SlotAlreadyBooked), db)
| FieldRefused doc (i : nat) s :
    txRead env = Delivered →
    AVAILABILITY db !! ref = Some doc →
    findIndex wanted (default [] (DoctorAvailability.slots doc)) = Z.of_nat i →
    default [] (DoctorAvailability.slots doc) !! i = Some s →
    TimeSlot.isBooked s = false →
    hasUndefinedField (newConsultation env bookingData) = true →
    BookOutcome (inl (mkError BookingFailed), db)
| CommitAborted doc (i : nat) s reason :
    txRead env = Delivered →
    AVAILABILITY db !! ref = Some doc →
    findIndex wanted (default [] (DoctorAvailability.slots doc)) = Z.of_nat i →
    default [] (DoctorAvailability.slots doc) !! i = Some s →
    TimeSlot.isBooked s = false →
    hasUndefinedField (newConsultation env bookingData) = false →
    commit env = Aborted reason →
    BookOutcome
      (inl (mkError (if String.eqb reason SlotAlreadyBooked
                     then reason else BookingFailed)), db)
| Booked doc (i : nat) s :
    txRead env = Delivered →
    AVAILABILITY db !! ref = Some doc →
    findIndex wanted (default [] (DoctorAvailability.slots doc)) = Z.of_nat i →
    default [] (DoctorAvailability.slots doc) !! i = Some s →
    TimeSlot.startTime s = TimeSlot.startTime selectedSlot →
    TimeSlot.isBooked s = false →
    hasUndefinedField (newConsultation env bookingData) = false →
    commit env = Committed →
    BookOutcome
      (inr (Consultation.mk (newDocId env) (newConsultation env bookingData)),
       committed doc i s).
End BookOutcome.


(** ** A worked scenario: doctor D on 2025-11-29 *)

Module Scenario.
Definition slot0900 : TimeSlot.t := TimeSlot.mk "09:00" "09:30" false None.
Definition slot0930 : TimeSlot.t := TimeSlot.mk "09:30" "10:00" false None.
Definition day : DoctorAvailability.t :=
  DoctorAvailability.mk "D_2025-11-29" "D" "2025-11-29"
    (Some [slot0900; slot0930]) None None.
Definition db0 : Firestore := mkFirestore {[ "D_2025-11-29" := day ]} ∅.

(** Booking data as the booking screen builds it: the symptoms and notes
    typed in, trimmed, the empty string when nothing was typed. *)
Definition patientA : BookingData.t :=
  BookingData.mk "D" "D" "Cardiology" "A" "Patient A" 1764406800000 500
    (Some "cough") (Some "").
Definition patientB : BookingData.t :=
  BookingData.mk "D" "D" "Cardiology" "B" "Patient B" 1764406800000 500
    (Some "") (Some "").

(** Booking data of a caller that leaves the optional notes out. *)
Definition patientC : BookingData.t :=
  BookingData.mk "D" "D" "Cardiology" "C" "Patient C" 1764406800000 500
    (Some "fever") None.

Definition attemptA : BookingAttempt :=
  mkAttempt (mkBookingEnv "c1" 1764300000000 Delivered Committed)
    patientA slot0900 "2025-11-29".
Definition attemptB : BookingAttempt :=
  mkAttempt (mkBookingEnv "c2" 1764300001000 Delivered Committed)
    patientB slot0900 "2025-11-29".
Definition attemptLost : BookingAttempt :=
  mkAttempt (mkBookingEnv "c3" 1764300002000 Delivered
               (Aborted "[firestore/unavailable]"))
    patientB slot0930 "2025-11-29".

(** Patient B asks for 09:00 while the backend cannot be read. *)
Definition attemptOffline : BookingAttempt :=
  mkAttempt (mkBookingEnv "c4" 1764300001000
               (Unavailable "[firestore/unavailable]") Committed)
    patientB slot0900 "2025-11-29".

(** The collections after patient A has booked 09:00. *)
Definition db1 : Firestore := snd (attempt attemptA db0).

(** ... and after patient A has cancelled. *)
Definition db2 : Firestore := statusOp (Cancel 1764300003000 Committed "c1") db1.

Definition reschedule : StatusOp :=
  UpdateStatus 1764300004000 Committed "c1" scheduled.

(** The wall clock of a zone whose offset never changes: an hour back is
    3600000 ms back. *)
Definition fixedOffsetZone (t : Z) : Z := t - 3600000.


(** Medicines numbered from 0. *)
Definition medicine (n : nat) : Medicine.t :=
  Medicine.mk (pretty n) ("medicine " +:+ pretty n) "" [] "" "" "" ""
    (Z.of_nat n) None.

Definition searched : list Medicine.t := map medicine (seq 0 51).

Definition fresh : World := mkWorld initialState emptyStorage.

(** Two favourites on record. *)
Definition withFavorites : World :=
  exec (toggleFavorite Written (medicine 2))
    (exec (toggleFavorite Written (medicine 1)) fresh).

(** Storage whose favourites do not parse, next to a good history. *)
Definition corruptFavorites : AsyncStorage :=
  mkAsyncStorage (Value (Json true)) (Value (Json [medicine 1])) (Value Malformed)
    Null Null Null Null Null Null.

(** Storage with no favourites key, next to a good history. *)
Definition missingFavorites : AsyncStorage :=
  mkAsyncStorage (Value (Json true)) (Value (Json [medicine 1])) Null
    Null Null Null Null Null Null.
End Scenario.

(** Whether the slot a booking of [(doctorId, date, startTime)] looks at
    is booked; no record or no such slot counts as not booked. *)
Definition slotBooked (db : Firestore) (doctorId date startTime : string) : bool :=
  match locateSlot db doctorId date startTime with
  | Some s => TimeSlot.isBooked s
  | None => false
  end.


(** Adding a list of medicines to the history, first to last. *)
Definition addAllToHistory (write : WriteOutcome) (ms : list Medicine.t) (w : World)
    : World :=
  fold_left (fun w m => exec (addToHistory write m) w) ms w.

(** [m.id === medicine.id] *)
Definition sameMedicine (medicine m : Medicine.t) : bool :=
  String.eqb (Medicine.id m) (Medicine.id medicine).

(** *** What hydration can use of a key

    A key is usable unless reading it rejects or its text does not parse.
    A usable key yields the parsed value, or the fallback when it is
    missing or empty. *)
Definition usable {A} (item : Item A) : bool :=
  match item with
  | Rejects | Value Malformed => false
  | Null | Value Empty | Value (Json _) => true
  end.

Definition yield {A B} (item : Item A) (found : A → B) (fallback : B) : B :=
  match item with
  | Value (Json a) => found a
  | _ => fallback
  end.

Definition allUsable (d : AsyncStorage) : bool :=
  usable (theme_ d) && usable (searchHistory_ d) && usable (favorites_ d) &&
  usable (reminders_ d) && usable (currentUser_ d) && usable (doctors_ d) &&
  usable (consultations_ d) && usable (prescriptions_ d).

(** The in-memory state a hydration that used every key leaves. *)
Definition hydrated (d : AsyncStorage) (s : AppState) : AppState :=
  mkAppState
    (yield (theme_ d) id false)
    (yield (searchHistory_ d) id [])
    (yield (favorites_ d) id [])
    (yield (reminders_ d) id [])
    (isLoading s)
    (yield (currentUser_ d) Some None)
    (yield (doctors_ d) id [])
    (yield (consultations_ d) id [])
    (activeConsultation s)
    (chatMessages s)
    (yield (prescriptions_ d) id []).

(** What [getItem] resolves to, if it resolves. *)
Definition resolved {A} (item : Item A) : option (option (Text A)) :=
  match item with
  | Null => Some None
  | Value text => Some (Some text)
  | Rejects => None
  end.

(** What [x ? JSON.parse(x) : fallback] evaluates to, if it does not throw. *)
Definition parsed {A B} (x : option (Text A)) (found : A → B) (fallback : B)
    : option B :=
  match x with
  | Some (Json a) => Some (found a)
  | Some Malformed => None
  | Some Empty | None => Some fallback
  end.

(** *** The states the store goes through

    The store starts from its initial state over whatever storage earlier
    sessions left, and changes through its actions only. *)

Inductive Action :=
| ToggleTheme (write : WriteOutcome)
| AddToHistory (write : WriteOutcome) (medicine : Medicine.t)
| ClearHistory (write : WriteOutcome)
| ToggleFavorite (write : WriteOutcome) (medicine : Medicine.t)
| AddReminder (write : WriteOutcome) (reminder : Reminder.t)
| UpdateReminder (write : WriteOutcome) (id : string) (updates : Reminder.partial)
| DeleteReminder (write : WriteOutcome) (id : string)
| SetIsLoading (loading : bool)
| SetCurrentUser (write : WriteOutcome) (user : option User.t)
| SetDoctors (write writeCachedAt : WriteOutcome) (at_ : Z) (doctors : list Doctor.t)
| SetConsultations (write : WriteOutcome) (consultations : list Consultation.t)
| AddConsultation (write : WriteOutcome) (consultation : Consultation.t)
| UpdateConsultation (write : WriteOutcome) (id : string)
    (updates : Consultation.partial)
| SetActiveConsultation (consultation : option Consultation.t)
| SetChatMessages (consultationId : string) (messages : list ChatMessage.t)
| AddChatMessage (consultationId : string) (message : ChatMessage.t)
| SetPrescriptions (write : WriteOutcome) (prescriptions : list Prescription.t)
| AddPrescription (write : WriteOutcome) (prescription : Prescription.t)
| Hydrate.

Definition run (a : Action) : Store unit :=
  match a with
  | ToggleTheme write => toggleTheme write
  | AddToHistory write medicine => addToHistory write medicine
  | ClearHistory write => clearHistory write
  | ToggleFavorite write medicine => toggleFavorite write medicine
  | AddReminder write reminder => addReminder write reminder
  | UpdateReminder write id updates => updateReminder write id updates
  | DeleteReminder write id => deleteReminder write id
  | SetIsLoading loading => setIsLoading loading
  | SetCurrentUser write user => setCurrentUser write user
  | SetDoctors write writeCachedAt at_ doctors =>
      setDoctors write writeCachedAt at_ doctors
  | SetConsultations write consultations => setConsultations write consultations
  | AddConsultation write consultation => addConsultation write consultation
  | UpdateConsultation write id updates => updateConsultation write id updates
  | SetActiveConsultation consultation => setActiveConsultation consultation
  | SetChatMessages consultationId messages => setChatMessages consultationId messages
  | AddChatMessage consultationId message => addChatMessage consultationId message
  | SetPrescriptions write prescriptions => setPrescriptions write prescriptions
  | AddPrescription write prescription => addPrescription write prescription
  | Hydrate => hydrate
  end.

Inductive storeReachable : World → Prop :=
| reach_install : storeReachable (mkWorld initialState emptyStorage)
| reach_action w a : storeReachable w → storeReachable (exec (run a) w)
| reach_restart w : storeReachable w → storeReachable (mkWorld initialState (disk w)).

(** The favorites in memory, and the favorites storage holds, have
    pairwise distinct identities. *)
Definition distinctFavorites (w : World) : Prop :=
  NoDup (identities (favorites (mem w))) ∧
  NoDup (identities (yield (favorites_ (disk w)) id [])).

(** ** consultationService.ts: the reads *)

(** [collection(...).doc(id).get()]: the document data, [None] when
    [!doc.exists]. *)
Definition getDoc {V} (outcome : ReadOutcome) (collection : gmap string V)
    (id : string) : Result (option V) :=
  match outcome with
  | Delivered => inr (collection !! id)
  | Unavailable reason => inl (mkError reason)
  end.

(** [catch (error) { throw new Error(msg) }] *)
Definition rethrowAs {A} (msg : string) (r : Result A) : Result A :=
  match r with
  | inl _ => inl (mkError msg)
  | inr a => inr a
  end.

Definition FetchAvailabilityFailed : string :=
  "Failed to fetch availability. Please try again.".
Definition ConsultationNotFound : string := "Consultation not found".
Definition FetchConsultationFailed : string :=
  "Failed to fetch consultation. Please try again.".
Definition FetchDoctorsFailed : string := "Failed to fetch doctors. Please try again.".

Definition fetchDoctorAvailability (outcome : ReadOutcome) (doctorId date : string)
    (db : Firestore) : Result (list TimeSlot.t) :=
  rethrowAs FetchAvailabilityFailed
    (let docId := availabilityDocId doctorId date in
     match getDoc outcome (AVAILABILITY db) docId with
     | inl e => inl e
     | inr None => inr []
     | inr (Some availability) => inr (default [] (DoctorAvailability.slots availability))
     end).

Definition fetchConsultationById (outcome : ReadOutcome) (consultationId : string)
    (db : Firestore) : Result Consultation.t :=
  rethrowAs FetchConsultationFailed
    (match getDoc outcome (CONSULTATIONS db) consultationId with
     | inl e => inl e
     | inr None => inl (mkError ConsultationNotFound)
     | inr (Some data) => inr (Consultation.mk consultationId data)
     end).

(** [Array.prototype.sort] with the comparator
    [(a, b) => (b.rating || 0) - (a.rating || 0)]: the sort is stable, so
    with this comparator the result is the one of a stable insertion by
    rating, highest first.  [place d l] puts [d] in front of the first
    doctor whose rating is not higher than its own. *)
Fixpoint placeByRating (d : Doctor.t) (l : list Doctor.t) : list Doctor.t :=
  match l with
  | [] => [d]
  | x :: l' =>
      if Doctor.rating x - Doctor.rating d >? 0
      then x :: placeByRating d l'
      else d :: x :: l'
  end.

Definition sortByRating (l : list Doctor.t) : list Doctor.t :=
  foldr placeByRating [] l.

(** [fetchDoctors]: [docs] is [snapshot.docs], each document with its id
    merged in. *)
Definition fetchDoctors (outcome : ReadOutcome) (docs : list Doctor.t)
    : Result (list Doctor.t) :=
  rethrowAs FetchDoctorsFailed
    (match outcome with
     | Unavailable reason => inl (mkError reason)
     | Delivered => inr (sortByRating (List.filter Doctor.verified docs))
     end).

(** Requests run one after another. *)
Definition runRequests (rs : list Request) (db : Firestore) : Firestore :=
  fold_left (fun db r => request r db) rs db.

(** The part of a slot no request changes. *)
Definition slotTimes (s : TimeSlot.t) : string * string :=
  (TimeSlot.startTime s, TimeSlot.endTime s).

Definition dayLayout (db : Firestore) (ref : string) : option (list (string * string)) :=
  (fun doc => map slotTimes (default [] (DoctorAvailability.slots doc)))
    <$> AVAILABILITY db !! ref.

(** The slots of a day's record, by document id. *)
Definition daySlots (db : Firestore) (ref : string) : list TimeSlot.t :=
  match AVAILABILITY db !! ref with
  | Some doc => default [] (DoctorAvailability.slots doc)
  | None => []
  end.

(** ** notificationService.ts: the other notifications *)

(** A JavaScript string is a sequence of UTF-16 code units: [length]
    counts them and [substring] cuts between them.  Where the code does
    either, the string is kept as its code units.  A [string] of this
    development holds a text as its UTF-8 bytes, and [utf16] gives the code
    units of that text. *)
Definition CodeUnits : Type := list N.

(** The code units of one code point: itself, or a surrogate pair. *)
Definition unitsOf (codePoint : N) : CodeUnits :=
  (if codePoint <? 65536 then [codePoint]
   else [55296 + (codePoint - 65536) / 1024; 56320 + (codePoint - 65536) mod 1024])%N.

Fixpoint utf16_of_bytes (bytes : list N) : CodeUnits :=
  (match bytes with
   | [] => []
   | b0 :: rest =>
       if b0 <? 128 then b0 :: utf16_of_bytes rest
       else if b0 <? 192 then 65533 :: utf16_of_bytes rest
       else if b0 <? 224 then
         match rest with
         | b1 :: rest' =>
             unitsOf ((b0 - 192) * 64 + (b1 - 128)) ++ utf16_of_bytes rest'
         | _ => [65533]
         end
       else if b0 <? 240 then
         match rest with
         | b1 :: b2 :: rest' =>
             unitsOf ((b0 - 224) * 4096 + (b1 - 128) * 64 + (b2 - 128))
               ++ utf16_of_bytes rest'
         | _ => [65533]
         end
       else
         match rest with
         | b1 :: b2 :: b3 :: rest' =>
             unitsOf ((b0 - 240) * 262144 + (b1 - 128) * 4096 + (b2 - 128) * 64
                      + (b3 - 128))
               ++ utf16_of_bytes rest'
         | _ => [65533]
         end
   end)%N.

Definition utf16 (text : string) : CodeUnits :=
  utf16_of_bytes (map Ascii.N_of_ascii (String.list_ascii_of_string text)).

(** What [PushNotification.localNotification] is given; [userInfo] is a
    JavaScript object used as a map. *)
Module Notification.
Record t := mk {
  channelId : string;
  title : string;
  message : CodeUnits;
  userInfo : gmap string string;
}.
End Notification.

(** The channels the constructor creates, in order. *)
Definition createdChannels : list string :=
  ["medicine-reminders"; "consultation-reminders"; "consultation-updates";
   "chat-messages"].

(** A message received from FCM: [{notification, data}]. *)
Module RemoteMessage.
Record notification := mkNotification {
  title : option string;
  body : option string;
}.
Record t := mk {
  notification_ : option notification;
  data : option (gmap string string);
}.
End RemoteMessage.

(** [x || fallback] on an optional string: missing and empty are falsy. *)
Definition orElse (x : option string) (fallback : string) : string :=
  match x with
  | Some s => if String.eqb s "" then fallback else s
  | None => fallback
  end.

(** [handleFCMMessage]: the notifications shown so far are the state. *)
Definition handleFCMMessage (remoteMessage : RemoteMessage.t)
    (shown : list Notification.t) : list Notification.t :=
  match RemoteMessage.notification_ remoteMessage with
  | None => shown
  | Some notification =>
      let data := RemoteMessage.data remoteMessage in
      let type := data ≫= (fun d => d !! "type") in
      let channelId :=
        if decide (type = Some "chat") then "chat-messages"
        else if decide (type = Some "reminder") then "consultation-reminders"
        else "consultation-updates" in
      shown ++ [Notification.mk channelId
                  (orElse (RemoteMessage.title notification) "MediFind")
                  (utf16 (orElse (RemoteMessage.body notification) ""))
                  (default ∅ data)]
  end.

Definition consultationInfo (consultationId type : string) : gmap string string :=
  <["type" := type]> (<["consultationId" := consultationId]> ∅).

(** [sendBookingConfirmation]; [toLocaleString] is the date formatting of
    the device's locale. *)
Definition sendBookingConfirmation (toLocaleString : Z → string)
    (consultation : Consultation.t) (shown : list Notification.t)
    : list Notification.t :=
  shown ++ [Notification.mk "consultation-updates" "Booking Confirmed"
              (utf16 ("Your consultation with Dr. "
                      +:+ Consultation.doctorName consultation
                      +:+ " is confirmed for "
                      +:+ toLocaleString (Consultation.scheduledTime consultation)))
              (consultationInfo (Consultation.id consultation) "booking-confirmed")].

Definition sendDoctorJoinedNotification (consultation : Consultation.t)
    (shown : list Notification.t) : list Notification.t :=
  shown ++ [Notification.mk "consultation-updates" "Doctor Joined"
              (utf16 ("Dr. " +:+ Consultation.doctorName consultation
                      +:+ " has joined the consultation"))
              (consultationInfo (Consultation.id consultation) "doctor-joined")].

Definition sendPrescriptionNotification (consultationId doctorName : string)
    (shown : list Notification.t) : list Notification.t :=
  shown ++ [Notification.mk "consultation-updates" "Prescription Received"
              (utf16 ("You have received a new prescription from Dr. " +:+ doctorName))
              (consultationInfo consultationId "prescription-received")].

(** [message.length > 100 ? `${message.substring(0, 100)}...` : message],
    on the code units of the message. *)
Definition chatPreview (message : CodeUnits) : CodeUnits :=
  if (100 <? length message)%nat
  then take 100 message ++ utf16 "..."
  else message.

Definition sendChatMessageNotification (consultationId senderName : string)
    (message : CodeUnits) (shown : list Notification.t) : list Notification.t :=
  shown ++ [Notification.mk "chat-messages" senderName (chatPreview message)
              (consultationInfo consultationId "chat")].

(** [PushNotification.cancelLocalNotification(id)]: the scheduled
    notifications with that id are dropped. *)
Definition cancelLocalNotification (id : string)
    (scheduled : list LocalNotification.t) : list LocalNotification.t :=
  List.filter (fun n => negb (String.eqb (LocalNotification.id n) id)) scheduled.

Definition cancelNotification (id : string)
    (scheduled : list LocalNotification.t) : list LocalNotification.t :=
  cancelLocalNotification id scheduled.

Definition cancelConsultationReminder (consultationId : string)
    (scheduled : list LocalNotification.t) : list LocalNotification.t :=
  cancelLocalNotification ("consultation-reminder-" +:+ consultationId) scheduled.

(** ** BookingScreen.tsx: [handleBookConsultation] *)

(** [Alert.alert(title, message)] *)
Inductive Alert := mkAlert (title message : string).

Module BookingScreen.
(** The props and component state the handler reads. *)
Record t := mk {
  doctor : Doctor.t;
  selectedDate : string;
  selectedSlot : option TimeSlot.t;
  symptoms : string;
  notes : string;
}.
End BookingScreen.

(** What the handler acts on: the store, the remote collections, and the
    notifications shown and scheduled. *)
Module App.
Record t := mk {
  store : World;
  remote : Firestore;
  shown : list Notification.t;
  scheduled : list LocalNotification.t;
}.
End App.

Definition BookingSucceeded : string :=
  "Consultation booked successfully! You will receive a reminder 1 hour before your appointment.".

Section HandleBookConsultation.
(** Built-ins the handler and the notification service call:
    [String.prototype.trim], the [Date] built from the selected date and
    the slot's start time, [toLocaleString], and the wall-clock
    [setHours(getHours() - 1)]. *)
Variables (trim : string → string)
          (scheduledTimeOf : string → string → Z)
          (toLocaleString : Z → string)
          (hourBack : Z → Z).

Definition bookingDataOf (screen : BookingScreen.t) (currentUser : User.t)
    (selectedSlot : TimeSlot.t) : BookingData.t :=
  let doctor := BookingScreen.doctor screen in
  BookingData.mk (Doctor.id doctor) (Doctor.name doctor)
    (Doctor.specialization doctor) (User.id currentUser) (User.name currentUser)
    (scheduledTimeOf (BookingScreen.selectedDate screen)
       (TimeSlot.startTime selectedSlot))
    (Doctor.consultationFee doctor)
    (Some (trim (BookingScreen.symptoms screen)))
    (Some (trim (BookingScreen.notes screen))).

(** The [try] block of the handler: the booking, the awaited
    [addConsultation], then the two calls to the notification service.  A
    rejection of either await skips what follows it. *)
Definition bookAndNotify (env : BookingEnv) (write : WriteOutcome) (remindAt : Z)
    (bookingData : BookingData.t) (selectedSlot : TimeSlot.t)
    (selectedDate : string) (app : App.t) : Result Consultation.t * App.t :=
  match bookConsultation env bookingData selectedSlot selectedDate (App.remote app) with
  | (inl error, remote') =>
      (inl error, App.mk (App.store app) remote' (App.shown app) (App.scheduled app))
  | (inr consultation, remote') =>
      match addConsultation write consultation (App.store app) with
      | (inl error, store') =>
          (inl error, App.mk store' remote' (App.shown app) (App.scheduled app))
      | (inr _, store') =>
          (inr consultation,
           App.mk store' remote'
             (sendBookingConfirmation toLocaleString consultation (App.shown app))
             (scheduleConsultationReminder hourBack remindAt consultation
                (App.scheduled app)))
      end
  end.

Definition handleBookConsultation (env : BookingEnv) (write : WriteOutcome)
    (remindAt : Z) (screen : BookingScreen.t) (app : App.t) : Alert * App.t :=
  match currentUser (mem (App.store app)) with
  | None => (mkAlert "Login Required" "Please login to book a consultation", app)
  | Some currentUser =>
      if String.eqb (BookingScreen.selectedDate screen) ""
      then (mkAlert "Error" "Please select a date", app)
      else
        match BookingScreen.selectedSlot screen with
        | None => (mkAlert "Error" "Please select a time slot", app)
        | Some selectedSlot =>
            match bookAndNotify env write remindAt
                    (bookingDataOf screen currentUser selectedSlot)
                    selectedSlot (BookingScreen.selectedDate screen) app with
            | (inr _, app') => (mkAlert "Success" BookingSucceeded, app')
            | (inl error, app') => (mkAlert "Booking Failed" (message error), app')
            end
        end
  end.
End HandleBookConsultation.

(** ** ConsultationsHistoryScreen.tsx: the status filter *)

#[global] Instance ConsultationStatus_eq_dec : EqDecision ConsultationStatus.
Proof. solve_decision. Defined.

Module StatusFilter.
(** ['all' | ConsultationStatus] *)
Inductive t := all | only (status : ConsultationStatus).
End StatusFilter.

(** The filters the screen offers. *)
Definition filters : list StatusFilter.t :=
  [StatusFilter.all; StatusFilter.only scheduled; StatusFilter.only completed;
   StatusFilter.only cancelled].

Definition filterConsultations (selectedFilter : StatusFilter.t)
    (consultations : list Consultation.t) : list Consultation.t :=
  match selectedFilter with
  | StatusFilter.all => consultations
  | StatusFilter.only status =>
      List.filter (fun c => bool_decide (Consultation.status c = status)) consultations
  end.

(** *** Store invariants *)

(** Whether a storage cell holds nothing or the text of a value: what the
    store itself writes. *)
Definition written {A} (item : Item A) : bool :=
  match item with
  | Null | Value (Json _) => true
  | Value Empty | Value Malformed | Rejects => false
  end.

Definition cleanStorage (d : AsyncStorage) : Prop :=
  written (theme_ d) = true ∧ written (searchHistory_ d) = true ∧
  written (favorites_ d) = true ∧ written (reminders_ d) = true ∧
  written (currentUser_ d) = true ∧ written (doctors_ d) = true ∧
  written (consultations_ d) = true ∧ written (prescriptions_ d) = true.

(** A history as [addToHistory] leaves it. *)
Definition tidyHistory (h : list Medicine.t) : Prop :=
  NoDup (identities h) ∧ (length h ≤ HISTORY_LIMIT)%nat.

(** Favorites as [toggleFavorite] leaves them. *)
Definition flagged (l : list Medicine.t) : Prop :=
  Forall (fun m => Medicine.isFavorite m = Some true) l.

(** The process is killed and started again: memory is initial, storage
    stays. *)
Definition restart (w : World) : World := mkWorld initialState (disk w).

(** Every booked slot names a consultation whose document exists. *)
Definition slotsBacked (db : Firestore) : Prop :=
  ∀ ref (i : nat) s,
    daySlots db ref !! i = Some s → TimeSlot.isBooked s = true →
    ∃ cid, TimeSlot.consultationId s = Some cid ∧ is_Some (CONSULTATIONS db !! cid).

(** ** authService.ts: [signInWithGoogle] *)

(** What a provider throws: the code the handler dispatches on. *)
Record Thrown := mkThrown { code : string; detail : string }.

Module FirebaseUser.
(** [userCredential.user], as far as the service reads it. *)
Record t := mk {
  uid : string;
  displayName : option string;
  email : option string;
  phoneNumber : option string;
}.
End FirebaseUser.

(** What the environment supplies to one sign-in: the outcome of the
    Google and Firebase Auth steps (the user, or the first error thrown),
    of the read of [users/<uid>], of [messaging().getToken()] and of the
    write, and the clock. *)
Record SignInEnv := mkSignInEnv {
  signedIn : Thrown + FirebaseUser.t;
  userRead : option Thrown;
  fcmToken : Thrown + string;
  userWrite : option Thrown;
  signInAt : Z;
}.

Definition withToken (token : string) (u : User.t) : User.t :=
  User.mk (User.id u) (User.name u) (User.email u) (User.phone u)
    (User.profileImage u) (User.dateOfBirth u) (User.gender u) (User.bloodGroup u)
    (User.allergies u) (User.medicalHistory u) (User.createdAt u) (Some token).

Definition googleSignInError (e : Thrown) : Error :=
  if String.eqb (code e) "SIGN_IN_CANCELLED" then mkError "Sign-in cancelled"
  else if String.eqb (code e) "IN_PROGRESS" then mkError "Sign-in already in progress"
  else if String.eqb (code e) "PLAY_SERVICES_NOT_AVAILABLE"
  then mkError "Google Play Services not available"
  else mkError "Failed to sign in with Google. Please try again.".

(** [signInWithGoogle] over the [users] collection. *)
Definition signInWithGoogle (env : SignInEnv) (users : gmap string User.t)
    : Result User.t * gmap string User.t :=
  let attempt_ : (Thrown + User.t) * gmap string User.t :=
    match signedIn env with
    | inl e => (inl e, users)
    | inr user =>
        match userRead env with
        | Some e => (inl e, users)
        | None =>
            match fcmToken env with
            | inl e => (inl e, users)
            | inr token =>
                let userData :=
                  match users !! FirebaseUser.uid user with
                  | Some data => withToken token data
                  | None =>
                      User.mk (FirebaseUser.uid user)
                        (orElse (FirebaseUser.displayName user) "User")
                        (orElse (FirebaseUser.email user) "")
                        (orElse (FirebaseUser.phoneNumber user) "")
                        None None None None None None
                        (Some (signInAt env)) (Some token)
                  end in
                match userWrite env with
                | Some e => (inl e, users)
                | None => (inr userData, <[FirebaseUser.uid user := userData]> users)
                end
            end
        end
    end in
  match attempt_ with
  | (inl e, users') => (inl (googleSignInError e), users')
  | (inr userData, users') => (inr userData, users')
  end.

(** ** Properties *)

(** *** findIndex *)

Lemma findIndex_from_spec {A} (p : A → bool) (l : list A) (i : Z) :
  0 ≤ i →
  (findIndex_from p l i = -1 ∧ ∀ n x, l !! n = Some x → p x = false) ∨
  (∃ (n : nat) x, findIndex_from p l i = i + Z.of_nat n ∧ l !! n = Some x ∧
                  p x = true ∧ ∀ m y, (m < n)%nat → l !! m = Some y → p y = false).
Proof.
  revert i. induction l as [|a l IH]; intros i Hi; simpl.
  - left. split; [reflexivity | intros n x H; destruct n; discriminate].
  - destruct (p a) eqn:Hpa.
    + right. exists 0%nat, a. repeat split; [lia | assumption | intros m y Hm; lia].
    + destruct (IH (i + 1) ltac:(lia)) as [[Hnone Hall] | (n & x & Hidx & Hn & Hpx & Hbefore)].
      * left. split; [assumption |].
        intros [|n] x Hx; simpl in Hx; [congruence | eauto].
      * right. exists (S n), x. repeat split; [lia | assumption | assumption |].
        intros [|m] y Hm Hy; simpl in Hy; [congruence | eapply Hbefore; [|eassumption]; lia].
Qed.

Lemma findIndex_spec {A} (p : A → bool) (l : list A) :
  (findIndex p l = -1 ∧ ∀ n x, l !! n = Some x → p x = false) ∨
  (∃ (n : nat) x, findIndex p l = Z.of_nat n ∧ l !! n = Some x ∧
                  p x = true ∧ ∀ m y, (m < n)%nat → l !! m = Some y → p y = false).
Proof.
  destruct (findIndex_from_spec p l 0 ltac:(lia)) as [H | (n & x & H1 & H2)].
  - left. exact H.
  - right. exists n, x. split; [exact H1 | exact H2].
Qed.

(** Replacing an element by one the predicate treats alike does not move
    the index found. *)
Lemma findIndex_from_insert {A} (p : A → bool) (l : list A) (k : nat) (x y : A) (i : Z) :
  l !! k = Some x → p y = p x →
  findIndex_from p (<[k := y]> l) i = findIndex_from p l i.
Proof.
  revert k i. induction l as [|a l IH]; intros k i Hk Hp; [discriminate|].
  destruct k as [|k]; simpl in *.
  - injection Hk as ->. rewrite Hp. reflexivity.
  - destruct (p a); [reflexivity | eauto].
Qed.

Lemma findIndex_insert {A} (p : A → bool) (l : list A) (k : nat) (x y : A) :
  l !! k = Some x → p y = p x → findIndex p (<[k := y]> l) = findIndex p l.
Proof. apply findIndex_from_insert. Qed.

(** *** bookConsultation, case by case *)

Lemma book_outcome env bookingData selectedSlot selectedDate db :
  BookOutcome env bookingData selectedSlot selectedDate db
    (bookConsultation env bookingData selectedSlot selectedDate db).
Proof.
  unfold bookConsultation, runTransaction, bookingTransaction, tx_bind, tx_get.
  destruct (txRead env) as [|why] eqn:Hread.
  2: { pose proof (ReadFailed env bookingData selectedSlot selectedDate db
                     why Hread) as H.
       simpl. destruct (String.eqb why SlotAlreadyBooked); [destruct why|]; exact H. }
  destruct (AVAILABILITY db !! _) as [doc|] eqn:Hdoc; simpl.
  2: { apply NoAvailability; assumption. }
  set (wanted := fun s : TimeSlot.t => String.eqb _ _).
  destruct (findIndex_spec wanted (default [] (DoctorAvailability.slots doc)))
    as [[Hidx _] | (i & s & Hidx & Hi & Hp & _)]; rewrite Hidx.
  { simpl. eapply NoSlot; eassumption. }
  replace (Z.of_nat i =? -1) with false by (symmetry; apply Z.eqb_neq; lia).
  rewrite Nat2Z.id, Hi.
  destruct (TimeSlot.isBooked s) eqn:Hbooked; simpl.
  { eapply Taken; eassumption. }
  unfold tx_update, tx_set; simpl.
  destruct (hasUndefinedField (newConsultation env bookingData)) eqn:Hfields; simpl.
  { eapply FieldRefused; eassumption. }
  destruct (commit env) as [|reason] eqn:Hcommit; simpl.
  - rewrite Hdoc. simpl.
    eapply Booked; try eassumption.
    apply String.eqb_eq. exact Hp.
  - pose proof (CommitAborted env bookingData selectedSlot selectedDate db
                  doc i s reason Hread Hdoc Hidx Hi Hbooked Hfields Hcommit) as H.
    destruct (String.eqb reason SlotAlreadyBooked); [destruct reason|]; exact H.
Qed.

Ltac book_cases env bookingData selectedSlot selectedDate db :=
  let H := fresh "Hout" in
  pose proof (book_outcome env bookingData selectedSlot selectedDate db) as H;
  let r := fresh "r" in
  let Hr := fresh "Hr" in
  remember (bookConsultation env bookingData selectedSlot selectedDate db) as r eqn:Hr;
  destruct H as [why Hread | Hread Hdoc | doc Hread Hdoc Hidx
                | doc i s Hread Hdoc Hidx Hi Hbooked
                | doc i s Hread Hdoc Hidx Hi Hbooked Hfields
                | doc i s reason Hread Hdoc Hidx Hi Hbooked Hfields Hcommit
                | doc i s Hread Hdoc Hidx Hi Hstart Hbooked Hfields Hcommit].

Lemma locateSlot_found db doctorId date startTime doc (i : nat) s :
  AVAILABILITY db !! availabilityDocId doctorId date = Some doc →
  findIndex (fun s => String.eqb (TimeSlot.startTime s) startTime)
    (default [] (DoctorAvailability.slots doc)) = Z.of_nat i →
  default [] (DoctorAvailability.slots doc) !! i = Some s →
  locateSlot db doctorId date startTime = Some s.
Proof.
  intros Hdoc Hidx Hi. unfold locateSlot. rewrite Hdoc, Hidx.
  replace (Z.of_nat i =? -1) with false by (symmetry; apply Z.eqb_neq; lia).
  rewrite Nat2Z.id. exact Hi.
Qed.

(** A failed booking leaves both collections as they were. *)
Lemma book_failure_unchanged env bookingData selectedSlot selectedDate db e db' :
  bookConsultation env bookingData selectedSlot selectedDate db = (inl e, db') →
  db' = db.
Proof.
  intros H. book_cases env bookingData selectedSlot selectedDate db;
    congruence.
Qed.




(** After the commit the located slot is the booked one. *)
Lemma locateSlot_committed env bookingData selectedSlot selectedDate db doc (i : nat) s :
  findIndex (fun s => String.eqb (TimeSlot.startTime s) (TimeSlot.startTime selectedSlot))
    (default [] (DoctorAvailability.slots doc)) = Z.of_nat i →
  default [] (DoctorAvailability.slots doc) !! i = Some s →
  locateSlot (committed env bookingData selectedDate db doc i s)
    (BookingData.doctorId bookingData) selectedDate (TimeSlot.startTime selectedSlot)
  = Some (markBooked (newDocId env) s).
Proof.
  intros Hidx Hi.
  eapply locateSlot_found.
  - unfold committed; simpl. apply lookup_insert_eq.
  - simpl. rewrite (findIndex_insert _ _ _ s) by (assumption || reflexivity).
    exact Hidx.
  - simpl. apply list_lookup_insert_eq. eapply lookup_lt_Some. exact Hi.
Qed.

Lemma book_success_booked env bookingData selectedSlot selectedDate db c db' :
  bookConsultation env bookingData selectedSlot selectedDate db = (inr c, db') →
  ∃ s, locateSlot db' (BookingData.doctorId bookingData) selectedDate
         (TimeSlot.startTime selectedSlot) = Some (markBooked (Consultation.id c) s)
       ∧ locateSlot db (BookingData.doctorId bookingData) selectedDate
           (TimeSlot.startTime selectedSlot) = Some s
       ∧ TimeSlot.isBooked s = false
       ∧ c = Consultation.mk (newDocId env) (newConsultation env bookingData)
       ∧ CONSULTATIONS db' !! Consultation.id c = Some (Consultation.fields c).
Proof.
  intros H. book_cases env bookingData selectedSlot selectedDate db;
    try discriminate.
  injection H as <- <-. exists s. simpl. repeat split.
  - eapply locateSlot_committed; eassumption.
  - eapply locateSlot_found; eassumption.
  - assumption.
  - apply lookup_insert_eq.
Qed.

(** *** Sequences of attempts on one slot *)



Lemma runAttempts_length attempts db :
  length (fst (runAttempts attempts db)) = length attempts.
Proof.
  revert db. induction attempts as [|a rest IH]; intros db; simpl; [reflexivity|].
  destruct (attempt a db) as [r db1]. specialize (IH db1).
  destruct (runAttempts rest db1) as [rs db2]. simpl in *. congruence.
Qed.


(** *** No slot with two holders *)













Example scenario_two_patients :
  fst (runAttempts [Scenario.attemptA; Scenario.attemptB] Scenario.db0)
  = [inr (Consultation.mk "c1"
            (newConsultation (attemptEnv Scenario.attemptA) Scenario.patientA));
     inl (mkError SlotAlreadyBooked)].
Proof. vm_compute. reflexivity. Qed.

Example scenario_holder_after_booking :
  holders Scenario.db1 "D" "2025-11-29" "09:00" = ["c1"] ∧
  holders Scenario.db0 "D" "2025-11-29" "09:00" = [].
Proof. split; vm_compute; reflexivity. Qed.

Example scenario_slot_after_booking :
  locateSlot Scenario.db1 "D" "2025-11-29" "09:00"
  = Some (TimeSlot.mk "09:00" "09:30" true (Some "c1")).
Proof. vm_compute. reflexivity. Qed.


(** *** Atomicity *)

(** C2, as stated, fails: patient B's attempt on the slot patient A holds
    is a failed booking, and afterwards the requested slot is booked. *)
Lemma failed_booking_slot_still_booked :
  isOk (fst (attempt Scenario.attemptB Scenario.db1)) = false ∧
  slotBooked (snd (attempt Scenario.attemptB Scenario.db1))
    "D" "2025-11-29" "09:00" = true.
Proof. split; vm_compute; reflexivity. Qed.

(** C2, amended.  [bookConsultation] is all-or-nothing.  A failed booking
    leaves the availability record and the consultation collection exactly
    as they were: the requested slot is booked afterwards if and only if it
    was booked before, and the document under the booking's identifier is
    the one that was there before (none, for a fresh identifier).  A
    successful booking leaves both the updated slot, carrying the new
    identifier, and the new consultation document. *)
Theorem booking_all_or_nothing env bookingData selectedSlot selectedDate db :
  let doctorId := BookingData.doctorId bookingData in
  let startTime := TimeSlot.startTime selectedSlot in
  match bookConsultation env bookingData selectedSlot selectedDate db with
  | (inl _, db') =>
      db' = db ∧
      slotBooked db' doctorId selectedDate startTime
        = slotBooked db doctorId selectedDate startTime ∧
      CONSULTATIONS db' !! newDocId env = CONSULTATIONS db !! newDocId env
  | (inr c, db') =>
      slotBooked db doctorId selectedDate startTime = false ∧
      (∃ s, locateSlot db' doctorId selectedDate startTime = Some s ∧
            TimeSlot.isBooked s = true ∧
            TimeSlot.consultationId s = Some (Consultation.id c)) ∧
      Consultation.id c = newDocId env ∧
      CONSULTATIONS db' !! Consultation.id c = Some (Consultation.fields c)
  end.
Proof.
  intros doctorId startTime.
  destruct (bookConsultation env bookingData selectedSlot selectedDate db)
    as [[e|c] db'] eqn:Hbook.
  - apply book_failure_unchanged in Hbook. subst db'. auto.
  - destruct (book_success_booked _ _ _ _ _ _ _ Hbook)
      as (s & Hafter & Hbefore & Hfree & Hc & Hdoc).
    split; [unfold slotBooked; fold doctorId startTime in Hbefore;
            rewrite Hbefore; exact Hfree|].
    split; [exists (markBooked (Consultation.id c) s); auto|].
    split; [rewrite Hc; reflexivity | exact Hdoc].
Qed.

(** *** The error surfaced *)

(** C3, as stated, fails: the slot patient B asks for is booked, the
    transaction cannot read the availability record, and the error
    surfaced is the generic one. *)
Lemma booked_slot_generic_error :
  slotBooked Scenario.db1 "D" "2025-11-29" "09:00" = true ∧
  attempt Scenario.attemptOffline Scenario.db1
  = (inl (mkError BookingFailed), Scenario.db1) ∧
  BookingFailed ≠ SlotAlreadyBooked.
Proof. split; [|split]; [vm_compute; reflexivity.. | discriminate]. Qed.

(** C3, amended.  Unless the substrate itself rejects with the reserved
    text, a failed booking surfaces the [SlotAlreadyBooked] error as thrown
    exactly when its transaction read the availability record and the
    requested slot was already booked, and the one generic [BookingFailed]
    error in every other case (read failed, no availability record, no
    slot with that start time, document refused, commit rejected). *)
Theorem booking_error_surfaced env bookingData selectedSlot selectedDate db e db' :
  txRead env ≠ Unavailable SlotAlreadyBooked →
  commit env ≠ Aborted SlotAlreadyBooked →
  bookConsultation env bookingData selectedSlot selectedDate db = (inl e, db') →
  let booked := slotBooked db (BookingData.doctorId bookingData) selectedDate
                  (TimeSlot.startTime selectedSlot) in
  (e = mkError SlotAlreadyBooked ↔ txRead env = Delivered ∧ booked = true) ∧
  (e = mkError SlotAlreadyBooked ∨ e = mkError BookingFailed).
Proof.
  intros Hreading Hsub Hbook booked. subst booked. unfold slotBooked.
  assert (∀ P : Prop, mkError BookingFailed = mkError SlotAlreadyBooked ↔ P ∧ false = true)
    as Hgeneric by (intros P; split; [discriminate | intros [_ H]; discriminate]).
  book_cases env bookingData selectedSlot selectedDate db;
    try discriminate; injection Hbook as <- <-.
  - destruct (String.eqb why SlotAlreadyBooked) eqn:Hwhy.
    + apply String.eqb_eq in Hwhy. congruence.
    + split; [|right; reflexivity].
      split; [discriminate | intros [H _]; congruence].
  - unfold locateSlot. rewrite Hdoc. split; [apply Hgeneric | right; reflexivity].
  - unfold locateSlot. rewrite Hdoc, Hidx. simpl.
    split; [apply Hgeneric | right; reflexivity].
  - rewrite (locateSlot_found _ _ _ _ _ _ _ Hdoc Hidx Hi), Hbooked.
    split; [split; auto | left; reflexivity].
  - rewrite (locateSlot_found _ _ _ _ _ _ _ Hdoc Hidx Hi), Hbooked.
    split; [apply Hgeneric | right; reflexivity].
  - rewrite (locateSlot_found _ _ _ _ _ _ _ Hdoc Hidx Hi), Hbooked.
    destruct (String.eqb reason SlotAlreadyBooked) eqn:Hreason.
    + apply String.eqb_eq in Hreason. congruence.
    + split; [apply Hgeneric | right; reflexivity].
Qed.

Lemma booking_error_surfaced_witness :
  (txRead (attemptEnv Scenario.attemptB) ≠ Unavailable SlotAlreadyBooked ∧
   commit (attemptEnv Scenario.attemptB) ≠ Aborted SlotAlreadyBooked ∧
   bookConsultation (attemptEnv Scenario.attemptB) Scenario.patientB
     Scenario.slot0900 "2025-11-29" Scenario.db1
   = (inl (mkError SlotAlreadyBooked), Scenario.db1) ∧
   (mkError SlotAlreadyBooked = mkError SlotAlreadyBooked
    ↔ txRead (attemptEnv Scenario.attemptB) = Delivered ∧
      slotBooked Scenario.db1 "D" "2025-11-29" "09:00" = true)) ∧
  (txRead (attemptEnv Scenario.attemptLost) ≠ Unavailable SlotAlreadyBooked ∧
   commit (attemptEnv Scenario.attemptLost) ≠ Aborted SlotAlreadyBooked ∧
   bookConsultation (attemptEnv Scenario.attemptLost) Scenario.patientB
     Scenario.slot0930 "2025-11-29" Scenario.db1
   = (inl (mkError BookingFailed), Scenario.db1) ∧
   (mkError BookingFailed = mkError SlotAlreadyBooked
    ↔ txRead (attemptEnv Scenario.attemptLost) = Delivered ∧
      slotBooked Scenario.db1 "D" "2025-11-29" "09:30" = true)).
Proof.
  assert (bookConsultation (attemptEnv Scenario.attemptB) Scenario.patientB
            Scenario.slot0900 "2025-11-29" Scenario.db1
          = (inl (mkError SlotAlreadyBooked), Scenario.db1)) as HB
    by (vm_compute; reflexivity).
  assert (bookConsultation (attemptEnv Scenario.attemptLost) Scenario.patientB
            Scenario.slot0930 "2025-11-29" Scenario.db1
          = (inl (mkError BookingFailed), Scenario.db1)) as HL
    by (vm_compute; reflexivity).
  assert (txRead (attemptEnv Scenario.attemptB) ≠ Unavailable SlotAlreadyBooked) as HB1
    by (vm_compute; discriminate).
  assert (commit (attemptEnv Scenario.attemptB) ≠ Aborted SlotAlreadyBooked) as HB2
    by (vm_compute; discriminate).
  assert (txRead (attemptEnv Scenario.attemptLost) ≠ Unavailable SlotAlreadyBooked) as HL1
    by (vm_compute; discriminate).
  assert (commit (attemptEnv Scenario.attemptLost) ≠ Aborted SlotAlreadyBooked) as HL2
    by (vm_compute; discriminate).
  split.
  - split; [exact HB1|]. split; [exact HB2|]. split; [exact HB|].
    exact (proj1 (booking_error_surfaced _ _ _ _ _ _ _ HB1 HB2 HB)).
  - split; [exact HL1|]. split; [exact HL2|]. split; [exact HL|].
    exact (proj1 (booking_error_surfaced _ _ _ _ _ _ _ HL1 HL2 HL)).
Defined.

(** *** The consultation returned *)

(** C4.  A successful booking returns a consultation with status
    [scheduled], duration 30, channel name [consultation_<id>] for its own
    identifier, and the patient, doctor, fee and scheduled time of the
    booking data; the slot found under the requested start time is then
    booked and carries that identifier. *)
Theorem booking_result env bookingData selectedSlot selectedDate db c db' :
  bookConsultation env bookingData selectedSlot selectedDate db = (inr c, db') →
  let f := Consultation.fields c in
  ConsultationFields.status f = scheduled ∧
  ConsultationFields.duration f = 30 ∧
  ConsultationFields.agoraChannelName f = "consultation_" +:+ Consultation.id c ∧
  ConsultationFields.patientId f = BookingData.patientId bookingData ∧
  ConsultationFields.patientName f = BookingData.patientName bookingData ∧
  ConsultationFields.doctorId f = BookingData.doctorId bookingData ∧
  ConsultationFields.doctorName f = BookingData.doctorName bookingData ∧
  ConsultationFields.doctorSpecialization f
    = BookingData.doctorSpecialization bookingData ∧
  ConsultationFields.consultationFee f = BookingData.consultationFee bookingData ∧
  ConsultationFields.scheduledTime f = BookingData.scheduledTime bookingData ∧
  ∃ s, locateSlot db' (BookingData.doctorId bookingData) selectedDate
         (TimeSlot.startTime selectedSlot) = Some s ∧
       TimeSlot.startTime s = TimeSlot.startTime selectedSlot ∧
       TimeSlot.isBooked s = true ∧
       TimeSlot.consultationId s = Some (Consultation.id c).
Proof.
  intros Hbook f. subst f.
  book_cases env bookingData selectedSlot selectedDate db; try discriminate.
  injection Hbook as <- <-. simpl. repeat (split; [reflexivity|]).
  exists (markBooked (newDocId env) s). split.
  - eapply locateSlot_committed; eassumption.
  - simpl. auto.
Qed.

Lemma booking_result_witness :
  ∃ c db',
    bookConsultation (attemptEnv Scenario.attemptA) Scenario.patientA
      Scenario.slot0900 "2025-11-29" Scenario.db0 = (inr c, db') ∧
    ConsultationFields.status (Consultation.fields c) = scheduled ∧
    ConsultationFields.duration (Consultation.fields c) = 30 ∧
    ConsultationFields.agoraChannelName (Consultation.fields c) = "consultation_c1".
Proof.
  eexists _, _.
  assert (bookConsultation (attemptEnv Scenario.attemptA) Scenario.patientA
            Scenario.slot0900 "2025-11-29" Scenario.db0
          = (inr (Consultation.mk "c1"
                    (newConsultation (attemptEnv Scenario.attemptA) Scenario.patientA)),
             Scenario.db1)) as H by (vm_compute; reflexivity).
  split; [exact H|].
  destruct (booking_result _ _ _ _ _ _ _ H) as (H1 & H2 & H3 & _).
  split; [exact H1|]. split; [exact H2 | exact H3].
Defined.

(** *** Status updates *)

Lemma statusOp_statusOf op db cid s :
  statusOf db cid = Some s →
  statusOf (statusOp op db) cid = Some s ∨
  statusOf (statusOp op db) cid = Some (requestedStatus op).
Proof.
  intros Hs. unfold statusOf in *.
  assert (∀ at_ outcome target st,
            ConsultationFields.status <$>
              CONSULTATIONS (snd (updateConsultationStatus at_ outcome target st db)) !! cid
            = Some s ∨
            ConsultationFields.status <$>
              CONSULTATIONS (snd (updateConsultationStatus at_ outcome target st db)) !! cid
            = Some st) as Hupd.
  { intros at_ outcome target st. unfold updateConsultationStatus.
    destruct outcome; [|left; exact Hs].
    destruct (CONSULTATIONS db !! target) as [c|] eqn:Hc; [|left; exact Hs].
    simpl. destruct (decide (target = cid)) as [->|Hne].
    - right. rewrite lookup_insert_eq. reflexivity.
    - left. rewrite lookup_insert_ne by assumption. exact Hs. }
  destruct op as [at_ outcome target st | at_ outcome target]; simpl.
  - apply Hupd.
  - unfold cancelConsultation.
    specialize (Hupd at_ outcome target cancelled).
    destruct (updateConsultationStatus at_ outcome target cancelled db) as [[e|[]] db'];
      exact Hupd.
Qed.

(** C8, as stated, fails: the generic status update stores whatever status
    it is given, so a cancelled consultation can be set back to
    [scheduled]. *)
Lemma cancelled_then_scheduled :
  statusOf Scenario.db2 "c1" = Some cancelled ∧
  statusOf (runStatusOps [Scenario.reschedule] Scenario.db2) "c1" = Some scheduled.
Proof. split; vm_compute; reflexivity. Qed.

(** C8, amended.  Over every sequence of status operations that ask only
    for [completed] or [cancelled] (every [cancelConsultation] does), a
    consultation that is [cancelled] or [completed] stays in one of these
    two states.  [updateConsultationStatus] itself checks no transition. *)
Theorem terminal_status_kept ops db cid s :
  statusOf db cid = Some s →
  isTerminal s = true →
  Forall (fun op => isTerminal (requestedStatus op) = true) ops →
  ∃ s', statusOf (runStatusOps ops db) cid = Some s' ∧ isTerminal s' = true.
Proof.
  intros Hs Ht Hops. revert db s Hs Ht.
  induction Hops as [|op ops Hop _ IH]; intros db s Hs Ht; simpl.
  - exists s. auto.
  - destruct (statusOp_statusOf op db cid s Hs) as [H|H]; eapply IH; eassumption.
Qed.

Lemma terminal_status_kept_witness :
  statusOf Scenario.db2 "c1" = Some cancelled ∧
  isTerminal cancelled = true ∧
  ∃ s', statusOf (runStatusOps
                    [Cancel 1764300005000 Committed "c1";
                     UpdateStatus 1764300006000 Committed "c1" completed]
                    Scenario.db2) "c1" = Some s'
        ∧ isTerminal s' = true.
Proof.
  assert (statusOf Scenario.db2 "c1" = Some cancelled) as H1
    by (vm_compute; reflexivity).
  split; [exact H1|]. split; [reflexivity|].
  apply (terminal_status_kept _ Scenario.db2 "c1" cancelled H1 eq_refl).
  repeat constructor.
Defined.

(** *** The consultation reminder *)



(** What the [try] block of the booking handler leaves, by the outcome of
    the booking and of the cache write. *)
Lemma bookAndNotify_cases toLocaleString hourBack env write remindAt bookingData
    selectedSlot selectedDate app :
  let run := bookAndNotify toLocaleString hourBack env write remindAt bookingData
               selectedSlot selectedDate app in
  (∃ e, bookConsultation env bookingData selectedSlot selectedDate (App.remote app)
        = (inl e, App.remote app) ∧
        run = (inl e, app)) ∨
  (∃ c remote',
     bookConsultation env bookingData selectedSlot selectedDate (App.remote app)
     = (inr c, remote') ∧
     match write with
     | Written =>
         run = (inr c,
                App.mk (exec (addConsultation Written c) (App.store app)) remote'
                  (sendBookingConfirmation toLocaleString c (App.shown app))
                  (scheduleConsultationReminder hourBack remindAt c
                     (App.scheduled app)))
     | Refused reason =>
         run = (inl (mkError reason),
                App.mk (exec (addConsultation write c) (App.store app)) remote'
                  (App.shown app) (App.scheduled app))
     end).
Proof.
  intros run. subst run. unfold bookAndNotify.
  destruct (bookConsultation env bookingData selectedSlot selectedDate (App.remote app))
    as [[e|c] remote'] eqn:Hbook.
  - left. exists e. apply book_failure_unchanged in Hbook as Hsame. subst remote'.
    split; [reflexivity|]. destruct app; reflexivity.
  - right. exists c, remote'. split; [reflexivity|].
    destruct write as [|reason]; reflexivity.
Qed.


(** Across a change of the zone's offset the hour back is not 3600000 ms
    back: where it is two hours, a consultation that starts in ninety
    minutes gets no reminder. *)
Example reminder_across_offset_change :
  let zone (t : Z) := t - 7200000 in
  let visit := Consultation.mk "c1"
                 (newConsultation (attemptEnv Scenario.attemptA) Scenario.patientA) in
  let now := Consultation.scheduledTime visit - 5400000 in
  (Consultation.scheduledTime visit - 3600000 >? now) = true ∧
  scheduleConsultationReminder zone now visit [] = [] ∧
  length (scheduleConsultationReminder Scenario.fixedOffsetZone now visit []) = 1%nat.
Proof. cbv zeta. repeat split; vm_compute; reflexivity. Qed.

(** *** The search history *)

Lemma history_addToHistory write w m :
  history (exec (addToHistory write m) w)
  = take HISTORY_LIMIT (m :: List.filter (otherMedicine m) (history w)).
Proof. destruct write; reflexivity. Qed.

Lemma filter_all {A} (p : A → bool) (l : list A) :
  (∀ x, x ∈ l → p x = true) → List.filter p l = l.
Proof.
  induction l as [|a l IH]; intros Hall; simpl; [reflexivity|].
  rewrite (Hall a) by constructor. f_equal. apply IH.
  intros x Hx. apply Hall. constructor. exact Hx.
Qed.

Lemma filter_none {A} (p : A → bool) (l : list A) :
  (∀ x, x ∈ l → p x = false) → List.filter p l = [].
Proof.
  induction l as [|a l IH]; intros Hall; simpl; [reflexivity|].
  rewrite (Hall a) by constructor. apply IH.
  intros x Hx. apply Hall. constructor. exact Hx.
Qed.

Lemma filter_shorter {A} (p : A → bool) (l : list A) x :
  x ∈ l → p x = false → (length (List.filter p l) < length l)%nat.
Proof.
  induction l as [|a l IH]; intros Hx Hp; [inversion Hx|].
  pose proof (List.filter_length_le p l) as Hle.
  simpl. apply elem_of_cons in Hx as [->|Hx].
  - rewrite Hp. lia.
  - destruct (p a); simpl; [specialize (IH Hx Hp); lia | lia].
Qed.

Lemma otherMedicine_sameMedicine m x : otherMedicine m x = negb (sameMedicine m x).
Proof. reflexivity. Qed.

Lemma take_take_app {A} (n k : nat) (l r : list A) :
  (n ≤ k)%nat → take n (take k l ++ r) = take n (l ++ r).
Proof.
  intros Hnk. destruct (decide (length l ≤ k)%nat) as [Hle|Hgt].
  - rewrite (take_ge l k) by assumption. reflexivity.
  - rewrite !take_app_le, take_take; [f_equal; lia | lia |].
    rewrite length_take. lia.
Qed.

Lemma addAllToHistory_snoc write ms m w :
  history (addAllToHistory write (ms ++ [m]) w)
  = take HISTORY_LIMIT
      (m :: List.filter (otherMedicine m) (history (addAllToHistory write ms w))).
Proof.
  unfold addAllToHistory. rewrite fold_left_app. apply history_addToHistory.
Qed.

(** Adding medicines with pairwise distinct identities stacks them on the
    front, newest first, within the limit. *)
Lemma addAllToHistory_distinct write ms w :
  ms ≠ [] →
  NoDup (identities ms) →
  ∃ older, history (addAllToHistory write ms w)
           = take HISTORY_LIMIT (rev ms ++ older).
Proof.
  induction ms as [|m ms IH] using rev_ind; intros Hne Hnd; [congruence|].
  rewrite addAllToHistory_snoc, rev_app_distr. simpl.
  destruct ms as [|m0 ms0]; [eexists; reflexivity|].
  unfold identities in Hnd. rewrite map_app in Hnd.
  apply NoDup_app in Hnd as (Hnd & Hfresh & _).
  destruct (IH ltac:(discriminate) Hnd) as [older ->].
  set (ms := m0 :: ms0) in *.
  exists (List.filter (otherMedicine m) (take (HISTORY_LIMIT - length (rev ms)) older)).
  f_equal. rewrite take_app, List.filter_app.
  rewrite (filter_all _ (take _ (rev ms))).
  - apply (take_take_app 49 50). lia.
  - intros x Hx. apply subseteq_take, list_elem_of_In, in_rev in Hx.
    unfold otherMedicine. apply negb_true_iff, String.eqb_neq. intros Heq.
    apply (Hfresh (Medicine.id x)).
    + apply list_elem_of_In, in_map. exact Hx.
    + simpl. rewrite Heq. constructor.
Qed.

Lemma sameMedicine_once m h :
  List.filter (sameMedicine m)
    (m :: take 49 (List.filter (otherMedicine m) h)) = [m].
Proof.
  simpl. unfold sameMedicine at 1. rewrite String.eqb_refl. f_equal.
  apply filter_none. intros x Hx.
  apply subseteq_take, list_elem_of_In, List.filter_In in Hx as [_ Hx].
  rewrite otherMedicine_sameMedicine in Hx. apply negb_true_iff. exact Hx.
Qed.

Lemma present_not_other m h :
  In (Medicine.id m) (identities h) → ∃ x, x ∈ h ∧ otherMedicine m x = false.
Proof.
  intros Hin. apply in_map_iff in Hin as (x & Hid & Hx).
  exists x. split; [apply list_elem_of_In; exact Hx|].
  unfold otherMedicine. rewrite Hid, String.eqb_refl. reflexivity.
Qed.

(** C5.  [addToHistory] drops the entries with the medicine's identity,
    puts the medicine in front and keeps the first 50.  So the new history
    starts with the medicine, holds its identity once and has at most 50
    entries; when the identity was already there the history does not
    grow.  After 51 medicines with distinct identities the history is
    exactly the last 50 of them, most recent first.  All of it holds of
    the history in memory whether or not storage takes the write. *)
Theorem history_cap_and_dedup write w m ms :
  NoDup (identities ms) →
  length ms = 51%nat →
  let h := history w in
  let h' := history (exec (addToHistory write m) w) in
  let h51 := history (addAllToHistory write ms w) in
  h' = take 50 (m :: List.filter (otherMedicine m) h) ∧
  head h' = Some m ∧
  length (List.filter (sameMedicine m) h') = 1%nat ∧
  (length h' ≤ 50)%nat ∧
  (In (Medicine.id m) (identities h) → (length h' ≤ length h)%nat) ∧
  h51 = take 50 (rev ms) ∧
  length h51 = 50%nat.
Proof.
  intros Hnd Hlen h h' h51.
  assert (h' = take 50 (m :: List.filter (otherMedicine m) h)) as Hh'
    by apply history_addToHistory.
  split; [exact Hh'|]. split; [rewrite Hh'; reflexivity|].
  split; [rewrite Hh'; change (take 50 (m :: ?l)) with (m :: take 49 l);
          rewrite sameMedicine_once; reflexivity|].
  split; [rewrite Hh', length_take; lia|].
  split.
  { intros Hin. apply present_not_other in Hin as (x & Hx & Hother).
    pose proof (filter_shorter _ _ _ Hx Hother) as Hlt.
    rewrite Hh', length_take, length_cons. lia. }
  assert (ms ≠ []) as Hne by (intros ->; discriminate).
  destruct (addAllToHistory_distinct write ms w Hne Hnd) as [older Hall].
  assert (h51 = take 50 (rev ms)) as ->.
  { subst h51. rewrite Hall. apply take_app_le. rewrite length_rev. unfold HISTORY_LIMIT. lia. }
  split; [reflexivity|]. rewrite length_take, length_rev. lia.
Qed.

Lemma history_cap_and_dedup_witness :
  NoDup (identities Scenario.searched) ∧
  length Scenario.searched = 51%nat ∧
  history (addAllToHistory Written Scenario.searched Scenario.fresh)
  = take 50 (rev Scenario.searched) ∧
  length (history (addAllToHistory Written Scenario.searched Scenario.fresh)) = 50%nat.
Proof.
  assert (NoDup (identities Scenario.searched)) as H1
    by (apply (bool_decide_unpack _); vm_compute; exact I).
  assert (length Scenario.searched = 51%nat) as H2 by reflexivity.
  split; [exact H1|]. split; [exact H2|].
  exact (proj2 (proj2 (proj2 (proj2 (proj2
           (history_cap_and_dedup Written Scenario.fresh (Scenario.medicine 1)
              Scenario.searched H1 H2)))))).
Defined.

Example history_after_51 :
  identities (history (addAllToHistory Written Scenario.searched Scenario.fresh))
  = map pretty (rev (seq 1 50)).
Proof. vm_compute. reflexivity. Qed.

Example history_readd :
  identities (history (exec (addToHistory Written (Scenario.medicine 1))
     (addAllToHistory Written (map Scenario.medicine [1; 2; 3]%nat) Scenario.fresh)))
  = ["1"; "3"; "2"].
Proof. vm_compute. reflexivity. Qed.

(** *** Favorites *)

Lemma findIndex_from_found {A} (p : A → bool) (l : list A) (i : Z) :
  0 ≤ i → (findIndex_from p l i >=? 0) = existsb p l.
Proof.
  revert i. induction l as [|a l IH]; intros i Hi; simpl; [reflexivity|].
  destruct (p a); simpl.
  - apply Z.geb_le. lia.
  - apply IH. lia.
Qed.

Lemma favorites_toggleFavorite write w m :
  favorites (mem (exec (toggleFavorite write m) w))
  = if existsb (sameMedicine m) (favorites (mem w))
    then List.filter (otherMedicine m) (favorites (mem w))
    else favorites (mem w) ++ [Medicine.asFavorite m].
Proof.
  rewrite <- (findIndex_from_found (sameMedicine m) _ 0) by lia.
  unfold exec, toggleFavorite, bind, get, set, setItem; simpl.
  fold (findIndex (sameMedicine m) (favorites (mem w))).
  unfold sameMedicine.
  destruct write, (findIndex _ (favorites (mem w)) >=? 0); reflexivity.
Qed.

Lemma existsb_filter_other m l :
  existsb (sameMedicine m) (List.filter (otherMedicine m) l) = false.
Proof.
  induction l as [|a l IH]; simpl; [reflexivity|].
  destruct (otherMedicine m a) eqn:Ha; simpl; [|exact IH].
  rewrite otherMedicine_sameMedicine in Ha. apply negb_true_iff in Ha.
  rewrite Ha. exact IH.
Qed.

Lemma absent_filter_other m l :
  existsb (sameMedicine m) l = false → List.filter (otherMedicine m) l = l.
Proof.
  intros Habs. apply filter_all. intros x Hx.
  rewrite otherMedicine_sameMedicine. apply negb_true_iff.
  destruct (sameMedicine m x) eqn:Hs; [|reflexivity].
  rewrite <- Habs. symmetry. apply existsb_exists.
  exists x. split; [apply list_elem_of_In; exact Hx | exact Hs].
Qed.

(** With distinct identities, removing a present identity removes one entry. *)
Lemma filter_other_length m l :
  NoDup (identities l) →
  existsb (sameMedicine m) l = true →
  S (length (List.filter (otherMedicine m) l)) = length l.
Proof.
  induction l as [|a l IH]; intros Hnd Hex; simpl in *; [discriminate|].
  apply NoDup_cons in Hnd as [Hfresh Hnd].
  rewrite otherMedicine_sameMedicine.
  destruct (sameMedicine m a) eqn:Ha; simpl.
  - rewrite absent_filter_other; [reflexivity|].
    destruct (existsb (sameMedicine m) l) eqn:Hl; [|reflexivity].
    exfalso. apply existsb_exists in Hl as (x & Hx & Hs).
    apply Hfresh. apply String.eqb_eq in Ha, Hs. rewrite Ha, <- Hs.
    apply list_elem_of_In, in_map. exact Hx.
  - rewrite IH by assumption. reflexivity.
Qed.

(** [toggleFavorite] keeps the identities of the favorites distinct. *)
Lemma toggleFavorite_distinct write w m :
  NoDup (identities (favorites (mem w))) →
  NoDup (identities (favorites (mem (exec (toggleFavorite write m) w)))).
Proof.
  intros Hnd. rewrite favorites_toggleFavorite.
  destruct (existsb _ _) eqn:Hex.
  - clear Hex. induction (favorites (mem w)) as [|a l IH]; simpl in *; [constructor|].
    apply NoDup_cons in Hnd as [Hfresh Hnd].
    destruct (otherMedicine m a); simpl; [|apply IH; exact Hnd].
    apply NoDup_cons. split; [|apply IH; exact Hnd].
    intros Hin. apply Hfresh.
    apply list_elem_of_In, in_map_iff in Hin as (x & Hid & Hx).
    apply List.filter_In in Hx as [Hx _].
    rewrite <- Hid. apply list_elem_of_In, in_map. exact Hx.
  - unfold identities. rewrite map_app. apply NoDup_app.
    split; [exact Hnd|]. split; [|apply NoDup_singleton].
    intros i Hi Hlast. apply list_elem_of_singleton in Hlast. subst i.
    apply list_elem_of_In, in_map_iff in Hi as (x & Hid & Hx).
    assert (existsb (sameMedicine m) (favorites (mem w)) = true) as Habs; [|congruence].
    apply existsb_exists. exists x. split; [exact Hx|].
    apply String.eqb_eq. exact Hid.
Qed.

(** *** Frame properties of the actions *)

(** C10.  Each action of the cache touches its own collection only:
    [addToHistory] and [clearHistory] leave favorites, reminders, doctors,
    consultations and prescriptions as they were; [toggleFavorite] leaves
    the search history and the reminders; [addReminder], [updateReminder]
    and [deleteReminder] leave the search history and the favorites;
    whether or not storage takes the action's write. *)
Theorem actions_frame (write : WriteOutcome) (w : World) (m : Medicine.t)
    (r : Reminder.t) (id : string) (updates : Reminder.partial) :
  let kept_by_history (w' : World) :=
    favorites (mem w') = favorites (mem w) ∧
    reminders (mem w') = reminders (mem w) ∧
    doctors (mem w') = doctors (mem w) ∧
    consultations (mem w') = consultations (mem w) ∧
    prescriptions (mem w') = prescriptions (mem w) in
  let kept_by_favorites (w' : World) :=
    searchHistory (mem w') = searchHistory (mem w) ∧
    reminders (mem w') = reminders (mem w) in
  let kept_by_reminders (w' : World) :=
    searchHistory (mem w') = searchHistory (mem w) ∧
    favorites (mem w') = favorites (mem w) in
  kept_by_history (exec (addToHistory write m) w) ∧
  kept_by_history (exec (clearHistory write) w) ∧
  kept_by_favorites (exec (toggleFavorite write m) w) ∧
  kept_by_reminders (exec (addReminder write r) w) ∧
  kept_by_reminders (exec (updateReminder write id updates) w) ∧
  kept_by_reminders (exec (deleteReminder write id) w).
Proof. cbv zeta. destruct write; repeat split; reflexivity. Qed.

(** *** Hydration *)

Lemma getItem_bind {A B} (key : Key A) (k : option (Text A) → Store B) w :
  bind (getItem key) k w
  = match resolved (cell key (disk w)) with
    | Some x => k x w
    | None => (inl (mkError "AsyncStorage: read failed"), w)
    end.
Proof. unfold bind, getItem. destruct (cell key (disk w)); reflexivity. Qed.

Lemma parseOr_bind {A B C} (x : option (Text A)) (found : A → B) (fallback : B)
    (k : B → Store C) w :
  bind (parseOr x found fallback) k w
  = match parsed x found fallback with
    | Some b => k b w
    | None => (inl (mkError "SyntaxError: JSON Parse error"), w)
    end.
Proof. destruct x as [[a| |]|]; reflexivity. Qed.

Lemma unresolved_unusable {A} (item : Item A) : resolved item = None → usable item = false.
Proof. destruct item as [|[]|]; simpl; congruence. Qed.

Lemma unparsed_unusable {A B} (item : Item A) x (found : A → B) fallback :
  resolved item = Some x → parsed x found fallback = None → usable item = false.
Proof. destruct item as [|[]|]; simpl; intros [= <-]; simpl; congruence. Qed.

Lemma parsed_yield {A B} (item : Item A) x (found : A → B) fallback b :
  resolved item = Some x → parsed x found fallback = Some b →
  usable item = true ∧ yield item found fallback = b.
Proof.
  destruct item as [|[]|]; simpl; intros [= <-]; simpl; intros [= <-]; auto.
Qed.

Lemma allUsable_true d :
  allUsable d = true →
  usable (theme_ d) = true ∧ usable (searchHistory_ d) = true ∧
  usable (favorites_ d) = true ∧ usable (reminders_ d) = true ∧
  usable (currentUser_ d) = true ∧ usable (doctors_ d) = true ∧
  usable (consultations_ d) = true ∧ usable (prescriptions_ d) = true.
Proof.
  unfold allUsable. rewrite !andb_true_iff. tauto.
Qed.

Lemma allUsable_false d :
  usable (theme_ d) = false ∨ usable (searchHistory_ d) = false ∨
  usable (favorites_ d) = false ∨ usable (reminders_ d) = false ∨
  usable (currentUser_ d) = false ∨ usable (doctors_ d) = false ∨
  usable (consultations_ d) = false ∨ usable (prescriptions_ d) = false →
  allUsable d = false.
Proof.
  intros H. destruct (allUsable d) eqn:E; [|reflexivity].
  apply allUsable_true in E. intuition congruence.
Qed.

(** The body of [hydrate] either throws, with nothing changed, or sets
    every hydrated key at once. *)
Lemma hydrateBody_spec w :
  (allUsable (disk w) = false ∧ ∃ e, hydrateBody w = (inl e, w)) ∨
  (allUsable (disk w) = true ∧
   hydrateBody w = (inr tt, mkWorld (hydrated (disk w) (mem w)) (disk w))).
Proof.
  unfold hydrateBody.
  repeat
    (rewrite getItem_bind;
     match goal with
     | |- context [resolved ?item] =>
         let H := fresh "Hread" in
         destruct (resolved item) eqn:H;
         [| left; split;
            [apply unresolved_unusable in H; apply allUsable_false; tauto
            | eexists; reflexivity]]
     end).
  repeat
    (rewrite parseOr_bind;
     match goal with
     | |- context [parsed ?x ?found ?fallback] =>
         let H := fresh "Hparse" in
         destruct (parsed x found fallback) eqn:H;
         [| left; split;
            [ apply allUsable_false;
              repeat match goal with
                | Hr : resolved _ = Some x |- _ =>
                    apply (unparsed_unusable _ _ _ _ Hr) in H
                end; tauto
            | eexists; reflexivity]]
     end).
  right.
  repeat match goal with
    | Hr : resolved _ = Some ?x, Hp : parsed ?x _ _ = Some _ |- _ =>
        destruct (parsed_yield _ _ _ _ _ Hr Hp) as [? <-]; clear Hr Hp
    end.
  split.
  - unfold allUsable. simpl in *.
    repeat match goal with H : usable _ = true |- _ => rewrite H; clear H end.
    reflexivity.
  - reflexivity.
Qed.

(** C7, as stated, fails: with a favorites text that does not parse,
    hydration completes but loads no key at all; the readable search
    history and theme stay at their defaults. *)
Lemma corrupt_favorites_block_every_key :
  let w := mkWorld initialState Scenario.corruptFavorites in
  fst (hydrate w) = inr tt ∧
  searchHistory_ (disk w) = Value (Json [Scenario.medicine 1]) ∧
  searchHistory (mem (exec hydrate w)) = [] ∧
  theme_ (disk w) = Value (Json true) ∧
  isDarkMode (mem (exec hydrate w)) = false.
Proof. cbv zeta. repeat split; vm_compute; reflexivity. Qed.

Example missing_favorites_load_the_rest :
  let w := exec hydrate (mkWorld initialState Scenario.missingFavorites) in
  favorites (mem w) = [] ∧
  searchHistory (mem w) = [Scenario.medicine 1] ∧
  isDarkMode (mem w) = true.
Proof. cbv zeta. repeat split; vm_compute; reflexivity. Qed.

(** C7, amended.  [hydrate] never raises and does not write to storage.
    When every key is usable (present and parsing, empty, or missing) each
    in-memory collection is loaded from its own key, a missing or empty key
    giving its default (so missing favorites hydrate to the empty sequence
    while the other keys load).  When any key cannot be read or parsed,
    nothing is loaded: the in-memory state stays what it was before
    hydration (the initial defaults at process start). *)
Theorem hydrate_resilience w :
  fst (hydrate w) = inr tt ∧
  disk (snd (hydrate w)) = disk w ∧
  mem (snd (hydrate w))
  = (if allUsable (disk w) then hydrated (disk w) (mem w) else mem w).
Proof.
  unfold hydrate, try_catch.
  destruct (hydrateBody_spec w) as [[Hbad [e Hbody]] | [Hgood Hbody]];
    rewrite Hbody; [rewrite Hbad | rewrite Hgood]; auto.
Qed.

(** *** Favorites, over the states of the store *)

Lemma toggle_twice_distinct write1 write2 w m :
  NoDup (identities (favorites (mem w))) →
  let w2 := exec (toggleFavorite write2 m) (exec (toggleFavorite write1 m) w) in
  (∀ i, In i (identities (favorites (mem w2)))
        ↔ In i (identities (favorites (mem w)))) ∧
  length (favorites (mem w2)) = length (favorites (mem w)).
Proof.
  intros Hnd w2. subst w2. rewrite !favorites_toggleFavorite.
  set (favs := favorites (mem w)) in *.
  destruct (existsb (sameMedicine m) favs) eqn:Hex.
  - rewrite existsb_filter_other. split.
    + intros i. unfold identities. rewrite map_app, in_app_iff, !in_map_iff. simpl. split.
      * intros [(x & Hid & Hx) | (y & Hi & [<- | []])].
        -- apply List.filter_In in Hx as [Hx _]. eauto.
        -- apply existsb_exists in Hex as (x & Hx & Hs).
           apply String.eqb_eq in Hs. simpl in Hi.
           exists x. split; [congruence | exact Hx].
      * intros (x & Hid & Hx).
        destruct (otherMedicine m x) eqn:Ho.
        -- left. exists x. split; [exact Hid|]. apply List.filter_In. auto.
        -- right. exists (Medicine.asFavorite m). split; [|left; reflexivity].
           unfold otherMedicine in Ho.
           apply negb_false_iff, String.eqb_eq in Ho. simpl. congruence.
    + rewrite length_app. simpl. rewrite <- (filter_other_length m favs Hnd Hex). lia.
  - assert (existsb (sameMedicine m) (favs ++ [Medicine.asFavorite m]) = true) as ->.
    { rewrite existsb_app. simpl. unfold sameMedicine at 2. simpl.
      rewrite String.eqb_refl. apply orb_true_iff. right. reflexivity. }
    assert (otherMedicine m (Medicine.asFavorite m) = false) as Hself
      by (unfold otherMedicine; simpl; rewrite String.eqb_refl; reflexivity).
    rewrite List.filter_app, (absent_filter_other m favs Hex). simpl.
    rewrite Hself, app_nil_r. split; reflexivity.
Qed.

Lemma distinctFavorites_hydrate w : distinctFavorites w → distinctFavorites (exec hydrate w).
Proof.
  intros [Hmem Hdisk]. unfold exec, hydrate, try_catch.
  destruct (hydrateBody_spec w) as [[_ [e Hbody]] | [_ Hbody]]; rewrite Hbody; simpl.
  - split; assumption.
  - split; assumption.
Qed.

(** [addChatMessage] throws and changes nothing, or sets the chat
    messages and nothing else. *)
Lemma addChatMessage_cases consultationId message w :
  exec (addChatMessage consultationId message) w = w ∨
  ∃ conversations,
    exec (addChatMessage consultationId message) w
    = mkWorld (shallowMerge (mkPatch None None None None None None None None None
                               (Some conversations) None) (mem w)) (disk w).
Proof.
  unfold exec, addChatMessage, bind, get; simpl.
  destruct (getProperty (chatMessages (mem w)) consultationId); simpl; eauto.
Qed.

(** The outcomes of an action's writes, case by case. *)
Ltac action_cases_writes :=
  repeat match goal with
    | o : WriteOutcome |- _ => destruct o
    | u : option User.t |- _ => destruct u
    end.

Lemma distinctFavorites_action w a : distinctFavorites w → distinctFavorites (exec (run a) w).
Proof.
  intros Hw. destruct a as [| | | write medicine | | | | | | | | | | | | chat sent | | |];
    try (action_cases_writes; exact Hw).
  - destruct Hw as [Hmem Hdisk].
    pose proof (toggleFavorite_distinct write w medicine Hmem) as Hnew.
    split; [exact Hnew|]. destruct write; [exact Hnew | exact Hdisk].
  - simpl. destruct (addChatMessage_cases chat sent w) as [-> | [? ->]]; exact Hw.
  - apply distinctFavorites_hydrate. exact Hw.
Qed.

Lemma storeReachable_distinct w : storeReachable w → distinctFavorites w.
Proof.
  induction 1 as [| w a _ IH | w _ IH].
  - split; constructor.
  - apply distinctFavorites_action. exact IH.
  - split; [constructor | exact (proj2 IH)].
Qed.

(** C6.  In every state of the store (reached from the initial state by
    its actions, across restarts), toggling the same medicine twice gives
    back the identities that were present in the favorites and the number
    of entries, whether or not storage takes the two writes. *)
Theorem toggle_twice write1 write2 w m :
  storeReachable w →
  let w2 := exec (toggleFavorite write2 m) (exec (toggleFavorite write1 m) w) in
  (∀ i, In i (identities (favorites (mem w2)))
        ↔ In i (identities (favorites (mem w)))) ∧
  length (favorites (mem w2)) = length (favorites (mem w)).
Proof.
  intros Hreach. apply toggle_twice_distinct.
  apply storeReachable_distinct. exact Hreach.
Qed.

Lemma toggle_twice_witness :
  storeReachable Scenario.withFavorites ∧
  let w2 := exec (toggleFavorite Written (Scenario.medicine 1))
              (exec (toggleFavorite Written (Scenario.medicine 1))
                 Scenario.withFavorites) in
  (∀ i, In i (identities (favorites (mem w2)))
        ↔ In i (identities (favorites (mem Scenario.withFavorites)))) ∧
  length (favorites (mem w2)) = length (favorites (mem Scenario.withFavorites)).
Proof.
  assert (storeReachable Scenario.withFavorites) as H.
  { apply (reach_action _ (ToggleFavorite Written (Scenario.medicine 2))).
    apply (reach_action _ (ToggleFavorite Written (Scenario.medicine 1))).
    apply reach_install. }
  split; [exact H|].
  exact (toggle_twice Written Written Scenario.withFavorites (Scenario.medicine 1) H).
Defined.

Example toggle_twice_reorders :
  identities (favorites (mem (exec (toggleFavorite Written (Scenario.medicine 1))
     (exec (toggleFavorite Written (Scenario.medicine 1)) Scenario.withFavorites))))
  = ["2"; "1"].
Proof. vm_compute. reflexivity. Qed.

(** ** Further properties of the remote service *)

Lemma find_findIndex_from {A} (p : A → bool) (l : list A) (i : Z) :
  0 ≤ i →
  List.find p l
  = if findIndex_from p l i =? -1 then None
    else l !! Z.to_nat (findIndex_from p l i - i).
Proof.
  revert i. induction l as [|a l IH]; intros i Hi; simpl; [reflexivity|].
  destruct (p a) eqn:Hpa.
  - replace (i =? -1) with false by (symmetry; apply Z.eqb_neq; lia).
    replace (i - i) with 0 by lia. reflexivity.
  - rewrite (IH (i + 1)) by lia.
    destruct (findIndex_from_spec p l (i + 1) ltac:(lia))
      as [[Hidx _] | (n & x & Hidx & _)]; rewrite Hidx; [reflexivity|].
    replace (i + 1 + Z.of_nat n =? -1) with false by (symmetry; apply Z.eqb_neq; lia).
    replace (Z.to_nat (i + 1 + Z.of_nat n - (i + 1))) with n by lia.
    replace (Z.to_nat (i + 1 + Z.of_nat n - i)) with (S n) by lia.
    reflexivity.
Qed.

Lemma find_findIndex {A} (p : A → bool) (l : list A) :
  List.find p l
  = if findIndex p l =? -1 then None else l !! Z.to_nat (findIndex p l).
Proof.
  unfold findIndex. rewrite (find_findIndex_from p l 0) by lia.
  rewrite Z.sub_0_r. reflexivity.
Qed.

Lemma fetchDoctorAvailability_delivered doctorId date db :
  fetchDoctorAvailability Delivered doctorId date db
  = inr (daySlots db (availabilityDocId doctorId date)).
Proof.
  unfold fetchDoctorAvailability, daySlots, getDoc.
  destruct (AVAILABILITY db !! _); reflexivity.
Qed.

(** The slot a booking looks at is the first slot of the fetched day with
    the requested start time. *)
Lemma locateSlot_find db doctorId date startTime :
  locateSlot db doctorId date startTime
  = List.find (fun s => String.eqb (TimeSlot.startTime s) startTime)
      (daySlots db (availabilityDocId doctorId date)).
Proof.
  unfold locateSlot, daySlots. rewrite find_findIndex.
  destruct (AVAILABILITY db !! _); reflexivity.
Qed.

Lemma daySlots_committed env bookingData selectedDate db doc (i : nat) s :
  AVAILABILITY db !! availabilityDocId (BookingData.doctorId bookingData) selectedDate
  = Some doc →
  daySlots (committed env bookingData selectedDate db doc i s)
    (availabilityDocId (BookingData.doctorId bookingData) selectedDate)
  = <[i := markBooked (newDocId env) s]>
      (daySlots db (availabilityDocId (BookingData.doctorId bookingData) selectedDate)).
Proof.
  intros Hdoc. unfold daySlots, committed; simpl.
  rewrite lookup_insert_eq, Hdoc. reflexivity.
Qed.

(** X1.  After a successful booking the fetched day differs from the day
    fetched before in one slot only: the first slot with the requested
    start time, which was free and is now booked under the returned
    identifier. *)
Theorem fetch_after_booking env bookingData selectedSlot selectedDate db c db' :
  bookConsultation env bookingData selectedSlot selectedDate db = (inr c, db') →
  ∃ slots (i : nat) s,
    fetchDoctorAvailability Delivered (BookingData.doctorId bookingData)
      selectedDate db = inr slots ∧
    slots !! i = Some s ∧
    TimeSlot.startTime s = TimeSlot.startTime selectedSlot ∧
    TimeSlot.isBooked s = false ∧
    (∀ (j : nat) t, (j < i)%nat → slots !! j = Some t →
                    TimeSlot.startTime t ≠ TimeSlot.startTime selectedSlot) ∧
    fetchDoctorAvailability Delivered (BookingData.doctorId bookingData)
      selectedDate db'
    = inr (<[i := markBooked (Consultation.id c) s]> slots).
Proof.
  intros Hbook. rewrite !fetchDoctorAvailability_delivered.
  book_cases env bookingData selectedSlot selectedDate db; try discriminate.
  injection Hbook as <- <-.
  exists (daySlots db (availabilityDocId (BookingData.doctorId bookingData) selectedDate)),
    i, s.
  assert (daySlots db (availabilityDocId (BookingData.doctorId bookingData) selectedDate)
          = default [] (DoctorAvailability.slots doc)) as Hday
    by (unfold daySlots; rewrite Hdoc; reflexivity).
  split; [reflexivity|]. rewrite Hday.
  split; [exact Hi|]. split; [exact Hstart|]. split; [exact Hbooked|]. split.
  - intros j t Hj Ht Heq.
    destruct (findIndex_spec
                (fun s => String.eqb (TimeSlot.startTime s)
                                     (TimeSlot.startTime selectedSlot))
                (default [] (DoctorAvailability.slots doc)))
      as [[Hnone _] | (n & x & Hn & _ & _ & Hbefore)]; [lia|].
    assert (n = i) as -> by lia.
    specialize (Hbefore j t Hj Ht). apply String.eqb_neq in Hbefore. congruence.
  - simpl. rewrite daySlots_committed by exact Hdoc. rewrite Hday. reflexivity.
Qed.

Lemma fetch_after_booking_witness :
  bookConsultation (attemptEnv Scenario.attemptA) Scenario.patientA
    Scenario.slot0900 "2025-11-29" Scenario.db0
  = (inr (Consultation.mk "c1"
            (newConsultation (attemptEnv Scenario.attemptA) Scenario.patientA)),
     Scenario.db1) ∧
  ∃ slots (i : nat) s,
    fetchDoctorAvailability Delivered "D" "2025-11-29" Scenario.db0 = inr slots ∧
    slots !! i = Some s ∧
    TimeSlot.startTime s = "09:00" ∧
    TimeSlot.isBooked s = false ∧
    (∀ (j : nat) t, (j < i)%nat → slots !! j = Some t →
                    TimeSlot.startTime t ≠ "09:00") ∧
    fetchDoctorAvailability Delivered "D" "2025-11-29" Scenario.db1
    = inr (<[i := markBooked "c1" s]> slots).
Proof.
  assert (bookConsultation (attemptEnv Scenario.attemptA) Scenario.patientA
            Scenario.slot0900 "2025-11-29" Scenario.db0
          = (inr (Consultation.mk "c1"
                    (newConsultation (attemptEnv Scenario.attemptA) Scenario.patientA)),
             Scenario.db1)) as H by (vm_compute; reflexivity).
  split; [exact H|].
  exact (fetch_after_booking _ _ _ _ _ _ _ H).
Defined.

Example scenario_fetch_after_booking :
  fetchDoctorAvailability Delivered "D" "2025-11-29" Scenario.db1
  = inr [TimeSlot.mk "09:00" "09:30" true (Some "c1"); Scenario.slot0930] ∧
  fetchDoctorAvailability Delivered "D" "2099-01-01" Scenario.db1 = inr [].
Proof. split; vm_compute; reflexivity. Qed.

Lemma newConsultation_defined env bookingData :
  hasUndefinedField (newConsultation env bookingData) = false
  ↔ is_Some (BookingData.symptoms bookingData) ∧
    is_Some (BookingData.notes bookingData).
Proof.
  unfold hasUndefinedField; simpl.
  destruct (BookingData.symptoms bookingData), (BookingData.notes bookingData);
    split; try discriminate; eauto;
    intros [[? H1] [? H2]]; discriminate.
Qed.

(** X2.  A booking succeeds exactly when its transaction's read is
    delivered and its commit goes through, the booking data give both
    symptoms and notes, and the first slot of the fetched day with the
    requested start time is free. *)
Theorem booking_succeeds_iff env bookingData selectedSlot selectedDate db :
  isOk (fst (bookConsultation env bookingData selectedSlot selectedDate db)) = true
  ↔ txRead env = Delivered ∧ commit env = Committed ∧
    is_Some (BookingData.symptoms bookingData) ∧
    is_Some (BookingData.notes bookingData) ∧
    ∃ slots s,
      fetchDoctorAvailability Delivered (BookingData.doctorId bookingData)
        selectedDate db = inr slots ∧
      List.find (fun s => String.eqb (TimeSlot.startTime s)
                                     (TimeSlot.startTime selectedSlot)) slots = Some s ∧
      TimeSlot.isBooked s = false.
Proof.
  rewrite fetchDoctorAvailability_delivered.
  assert (∀ s, locateSlot db (BookingData.doctorId bookingData) selectedDate
                 (TimeSlot.startTime selectedSlot) = Some s ↔
               ∃ slots,
                 @inr Error _ (daySlots db (availabilityDocId
                                (BookingData.doctorId bookingData) selectedDate))
                 = inr slots ∧
                 List.find (fun s => String.eqb (TimeSlot.startTime s)
                              (TimeSlot.startTime selectedSlot)) slots = Some s) as Hloc.
  { intros s0. rewrite locateSlot_find. split.
    - intros H. eexists. split; [reflexivity | exact H].
    - intros (slots & [= <-] & H). exact H. }
  pose proof (newConsultation_defined env bookingData) as Hdefined.
  book_cases env bookingData selectedSlot selectedDate db; simpl.
  - split; [discriminate|]. intros (Hd & _). congruence.
  - split; [discriminate|]. intros (_ & _ & _ & _ & slots & s & Hs & Hfind & _).
    assert (locateSlot db (BookingData.doctorId bookingData) selectedDate
              (TimeSlot.startTime selectedSlot) = Some s) as H
      by (apply Hloc; eauto).
    unfold locateSlot in H. rewrite Hdoc in H. discriminate.
  - split; [discriminate|]. intros (_ & _ & _ & _ & slots & s & Hs & Hfind & _).
    assert (locateSlot db (BookingData.doctorId bookingData) selectedDate
              (TimeSlot.startTime selectedSlot) = Some s) as H
      by (apply Hloc; eauto).
    unfold locateSlot in H. rewrite Hdoc, Hidx in H. discriminate.
  - split; [discriminate|]. intros (_ & _ & _ & _ & slots & s0 & Hs & Hfind & Hfree).
    assert (locateSlot db (BookingData.doctorId bookingData) selectedDate
              (TimeSlot.startTime selectedSlot) = Some s0) as H
      by (apply Hloc; eauto).
    rewrite (locateSlot_found _ _ _ _ _ _ _ Hdoc Hidx Hi) in H. congruence.
  - split; [discriminate|]. intros (_ & _ & Hsym & Hnotes & _).
    assert (hasUndefinedField (newConsultation env bookingData) = false) as H
      by (apply Hdefined; auto).
    congruence.
  - split; [discriminate|]. intros (_ & Hc & _). congruence.
  - split; [|reflexivity]. intros _. split; [exact Hread|]. split; [exact Hcommit|].
    apply Hdefined in Hfields as [Hsym Hnotes].
    split; [exact Hsym|]. split; [exact Hnotes|].
    destruct (proj1 (Hloc s) (locateSlot_found _ _ _ _ _ _ _ Hdoc Hidx Hi))
      as (slots & Hs & Hfind).
    exists slots, s. auto.
Qed.

Example scenario_notes_left_out :
  bookConsultation (attemptEnv Scenario.attemptA) Scenario.patientC
    Scenario.slot0900 "2025-11-29" Scenario.db0
  = (inl (mkError BookingFailed), Scenario.db0).
Proof. vm_compute. reflexivity. Qed.

(** X3.  A consultation just booked is read back unchanged under its
    identifier. *)
Theorem booked_consultation_read_back env bookingData selectedSlot selectedDate db c db' :
  bookConsultation env bookingData selectedSlot selectedDate db = (inr c, db') →
  fetchConsultationById Delivered (Consultation.id c) db' = inr c.
Proof.
  intros Hbook.
  apply book_success_booked in Hbook as (_ & _ & _ & _ & _ & Hdoc).
  unfold fetchConsultationById, getDoc. rewrite Hdoc. destruct c; reflexivity.
Qed.

Lemma booked_consultation_read_back_witness :
  bookConsultation (attemptEnv Scenario.attemptA) Scenario.patientA
    Scenario.slot0900 "2025-11-29" Scenario.db0
  = (inr (Consultation.mk "c1"
            (newConsultation (attemptEnv Scenario.attemptA) Scenario.patientA)),
     Scenario.db1) ∧
  fetchConsultationById Delivered "c1" Scenario.db1
  = inr (Consultation.mk "c1"
           (newConsultation (attemptEnv Scenario.attemptA) Scenario.patientA)).
Proof.
  assert (bookConsultation (attemptEnv Scenario.attemptA) Scenario.patientA
            Scenario.slot0900 "2025-11-29" Scenario.db0
          = (inr (Consultation.mk "c1"
                    (newConsultation (attemptEnv Scenario.attemptA) Scenario.patientA)),
             Scenario.db1)) as H by (vm_compute; reflexivity).
  split; [exact H|].
  exact (booked_consultation_read_back _ _ _ _ _ _ _ H).
Defined.

(** X4.  [fetchConsultationById] returns the stored document under the
    requested identifier, or fails with its one generic error: the
    [ConsultationNotFound] error thrown for a missing document is replaced
    by its own handler and never reaches the caller. *)
Theorem fetchConsultationById_outcomes outcome consultationId db :
  match fetchConsultationById outcome consultationId db with
  | inr c =>
      outcome = Delivered ∧ Consultation.id c = consultationId ∧
      CONSULTATIONS db !! consultationId = Some (Consultation.fields c)
  | inl e =>
      e = mkError FetchConsultationFailed ∧ e ≠ mkError ConsultationNotFound ∧
      (outcome ≠ Delivered ∨ CONSULTATIONS db !! consultationId = None)
  end.
Proof.
  unfold fetchConsultationById, getDoc.
  destruct outcome as [|reason]; simpl.
  - destruct (CONSULTATIONS db !! consultationId) as [data|]; simpl.
    + auto.
    + split; [reflexivity|]. split; [discriminate | right; reflexivity].
  - split; [reflexivity|]. split; [discriminate | left; discriminate].
Qed.

(** *** What requests keep *)

Lemma request_cases r db :
  request r db = db ∨
  (∃ env bookingData selectedDate doc (i : nat) s,
     AVAILABILITY db !! availabilityDocId (BookingData.doctorId bookingData) selectedDate
       = Some doc ∧
     default [] (DoctorAvailability.slots doc) !! i = Some s ∧
     TimeSlot.isBooked s = false ∧
     request r db = committed env bookingData selectedDate db doc i s) ∨
  (∃ cid c st at_,
     CONSULTATIONS db !! cid = Some c ∧
     request r db
     = mkFirestore (AVAILABILITY db)
         (<[cid := ConsultationFields.withStatus st at_ c]> (CONSULTATIONS db))).
Proof.
  destruct r as [[env bookingData selectedSlot selectedDate] | op]; simpl.
  - unfold attempt; simpl.
    book_cases env bookingData selectedSlot selectedDate db; simpl; auto.
    right. left. exists env, bookingData, selectedDate, doc, i, s. auto.
  - assert (∀ at_ outcome cid st,
              snd (updateConsultationStatus at_ outcome cid st db) = db ∨
              ∃ c, CONSULTATIONS db !! cid = Some c ∧
                   snd (updateConsultationStatus at_ outcome cid st db)
                   = mkFirestore (AVAILABILITY db)
                       (<[cid := ConsultationFields.withStatus st at_ c]>
                          (CONSULTATIONS db))) as Hupd.
    { intros at_ outcome cid st. unfold updateConsultationStatus.
      destruct outcome; [|left; reflexivity].
      destruct (CONSULTATIONS db !! cid) as [c|] eqn:Hc; [|left; reflexivity].
      right. exists c. auto. }
    destruct op as [at_ outcome cid st | at_ outcome cid]; simpl.
    + destruct (Hupd at_ outcome cid st) as [H | (c & Hc & H)]; [left; exact H|].
      right. right. exists cid, c, st, at_. auto.
    + unfold cancelConsultation.
      destruct (Hupd at_ outcome cid cancelled) as [H | (c & Hc & H)];
        destruct (updateConsultationStatus at_ outcome cid cancelled db) as [[e|[]] db'];
        simpl in *; subst; auto.
      * right. right. exists cid, c, cancelled, at_. auto.
      * right. right. exists cid, c, cancelled, at_. auto.
Qed.

Lemma request_keeps_documents r db :
  dom (CONSULTATIONS db) ⊆ dom (CONSULTATIONS (request r db)) ∧
  dom (AVAILABILITY (request r db)) = dom (AVAILABILITY db).
Proof.
  destruct (request_cases r db)
    as [-> | [(env & bd & date & doc & i & s & Hdoc & _ & _ & ->)
             | (cid & c & st & at_ & Hc & ->)]]; simpl.
  - split; [reflexivity | reflexivity].
  - rewrite !dom_insert_L. split; [apply union_subseteq_r|].
    apply elem_of_dom_2 in Hdoc.
    apply subseteq_union_1_L, singleton_subseteq_l. exact Hdoc.
  - rewrite dom_insert_L. split; [apply union_subseteq_r | reflexivity].
Qed.

(** X5.  No sequence of bookings, status updates and cancellations deletes a
    consultation document, and none adds or deletes an availability
    record. *)
Theorem documents_never_deleted rs db :
  dom (CONSULTATIONS db) ⊆ dom (CONSULTATIONS (runRequests rs db)) ∧
  dom (AVAILABILITY (runRequests rs db)) = dom (AVAILABILITY db).
Proof.
  revert db. induction rs as [|r rs IH]; intros db; simpl.
  - split; reflexivity.
  - destruct (IH (request r db)) as [IH1 IH2].
    destruct (request_keeps_documents r db) as [H1 H2].
    split; [etransitivity; eassumption | congruence].
Qed.

Lemma daySlots_committed_other env bookingData selectedDate db doc (i : nat) s ref :
  ref ≠ availabilityDocId (BookingData.doctorId bookingData) selectedDate →
  daySlots (committed env bookingData selectedDate db doc i s) ref = daySlots db ref.
Proof.
  intros Hne. unfold daySlots, committed; simpl.
  rewrite lookup_insert_ne by congruence. reflexivity.
Qed.

Lemma request_daySlots r db ref :
  daySlots (request r db) ref = daySlots db ref ∨
  ∃ (i : nat) s cid,
    daySlots db ref !! i = Some s ∧ TimeSlot.isBooked s = false ∧
    daySlots (request r db) ref = <[i := markBooked cid s]> (daySlots db ref).
Proof.
  destruct (request_cases r db)
    as [-> | [(env & bd & date & doc & i & s & Hdoc & Hi & Hfree & ->)
             | (cid & c & st & at_ & Hc & ->)]]; auto.
  destruct (decide (ref = availabilityDocId (BookingData.doctorId bd) date)) as [->|Hne].
  - right. exists i, s, (newDocId env).
    rewrite daySlots_committed by exact Hdoc.
    unfold daySlots. rewrite Hdoc. auto.
  - left. apply daySlots_committed_other. exact Hne.
Qed.

Lemma request_slots_frozen r db ref :
  map slotTimes (daySlots (request r db) ref) = map slotTimes (daySlots db ref) ∧
  ∀ (i : nat) s,
    daySlots db ref !! i = Some s → TimeSlot.isBooked s = true →
    daySlots (request r db) ref !! i = Some s.
Proof.
  destruct (request_daySlots r db ref) as [-> | (i & s & cid & Hi & Hfree & ->)].
  - auto.
  - split.
    + apply list_eq. intros j. rewrite !list_lookup_fmap.
      destruct (decide (i = j)) as [<-|Hne].
      * rewrite list_lookup_insert_eq by (eapply lookup_lt_Some; exact Hi).
        rewrite Hi. reflexivity.
      * rewrite list_lookup_insert_ne by exact Hne. reflexivity.
    + intros j t Hj Ht. destruct (decide (i = j)) as [<-|Hne].
      * congruence.
      * rewrite list_lookup_insert_ne by exact Hne. exact Hj.
Qed.

(** X6.  Over every sequence of bookings, status updates and cancellations, the
    slots of a day keep their number, order, start and end times, and a
    slot that is booked stays exactly as it is: nothing releases it or
    hands it to another consultation. *)
Theorem booked_slots_frozen rs db ref :
  map slotTimes (daySlots (runRequests rs db) ref) = map slotTimes (daySlots db ref) ∧
  ∀ (i : nat) s,
    daySlots db ref !! i = Some s → TimeSlot.isBooked s = true →
    daySlots (runRequests rs db) ref !! i = Some s.
Proof.
  revert db. induction rs as [|r rs IH]; intros db; simpl; [auto|].
  destruct (IH (request r db)) as [IH1 IH2].
  destruct (request_slots_frozen r db ref) as [H1 H2].
  split; [congruence|]. intros i s Hi Hs. apply IH2; auto.
Qed.

(** *** Booked slots and their consultations *)

Lemma slotsBacked_request r db : slotsBacked db → slotsBacked (request r db).
Proof.
  intros Inv ref j t Hj Ht.
  pose proof (request_keeps_documents r db) as [Hdom _].
  assert (∀ cid, is_Some (CONSULTATIONS db !! cid) →
                 is_Some (CONSULTATIONS (request r db) !! cid)) as Hkeep.
  { intros cid H. apply elem_of_dom. apply Hdom. apply elem_of_dom. exact H. }
  destruct (request_cases r db)
    as [Heq | [(env & bd & date & doc & i & s & Hdoc & Hi & Hfree & Heq)
             | (cid & c & st & at_ & Hc & Heq)]].
  - rewrite Heq in *. eapply Inv; eassumption.
  - destruct (decide (ref = availabilityDocId (BookingData.doctorId bd) date))
      as [->|Hne].
    + rewrite Heq in Hj. rewrite daySlots_committed in Hj by exact Hdoc.
      destruct (decide (i = j)) as [<-|Hij].
      * rewrite list_lookup_insert_eq in Hj.
        2: { unfold daySlots. rewrite Hdoc. eapply lookup_lt_Some. exact Hi. }
        injection Hj as <-. exists (newDocId env). split; [reflexivity|].
        rewrite Heq. unfold committed; simpl. rewrite lookup_insert_eq. eauto.
      * rewrite list_lookup_insert_ne in Hj by exact Hij.
        destruct (Inv _ _ _ Hj Ht) as (cid & Hcid & Hsome). eauto.
    + rewrite Heq in Hj. rewrite daySlots_committed_other in Hj by exact Hne.
      destruct (Inv _ _ _ Hj Ht) as (cid & Hcid & Hsome). eauto.
  - assert (daySlots (request r db) ref = daySlots db ref) as Hsame
      by (rewrite Heq; reflexivity).
    rewrite Hsame in Hj.
    destruct (Inv _ _ _ Hj Ht) as (cid' & Hcid & Hsome). eauto.
Qed.

(** X7.  In every state reached from published availability, each booked slot
    carries a consultation identifier and a consultation document exists
    under it: no slot is seen booked without its consultation. *)
Theorem booked_slot_has_consultation db ref (i : nat) s :
  reachable db →
  daySlots db ref !! i = Some s →
  TimeSlot.isBooked s = true →
  ∃ cid, TimeSlot.consultationId s = Some cid ∧ is_Some (CONSULTATIONS db !! cid).
Proof.
  intros Hreach. revert ref i s.
  change (slotsBacked db).
  induction Hreach as [db Hun | db r _ IH].
  - intros ref i s Hi Hs. exfalso.
    unfold daySlots in Hi.
    destruct (AVAILABILITY db !! ref) as [doc|] eqn:Hdoc; [|destruct i; discriminate].
    rewrite (Hun ref doc s Hdoc) in Hs; [discriminate|].
    apply list_elem_of_lookup. eauto.
  - apply slotsBacked_request. exact IH.
Qed.

Lemma scenario_db0_unbooked : unbooked Scenario.db0.
Proof.
  intros ref doc s Hdoc Hs. unfold Scenario.db0 in Hdoc; simpl in Hdoc.
  apply lookup_singleton_Some in Hdoc as [_ <-]. simpl in Hs.
  apply elem_of_cons in Hs as [->|Hs]; [reflexivity|].
  apply list_elem_of_singleton in Hs as ->. reflexivity.
Qed.

Lemma booked_slot_has_consultation_witness :
  reachable Scenario.db1 ∧
  daySlots Scenario.db1 "D_2025-11-29" !! 0%nat
  = Some (TimeSlot.mk "09:00" "09:30" true (Some "c1")) ∧
  ∃ cid, Some "c1" = Some cid ∧ is_Some (CONSULTATIONS Scenario.db1 !! cid).
Proof.
  assert (reachable Scenario.db1) as H1.
  { apply (reachable_step Scenario.db0 (Book Scenario.attemptA)).
    apply reachable_init. exact scenario_db0_unbooked. }
  assert (daySlots Scenario.db1 "D_2025-11-29" !! 0%nat
          = Some (TimeSlot.mk "09:00" "09:30" true (Some "c1"))) as H2
    by (vm_compute; reflexivity).
  split; [exact H1|]. split; [exact H2|].
  exact (booked_slot_has_consultation _ _ _ _ H1 H2 eq_refl).
Defined.



Example scenario_cancelled_slot_refused :
  bookConsultation (attemptEnv Scenario.attemptB) Scenario.patientB
    Scenario.slot0900 "2025-11-29" Scenario.db2
  = (inl (mkError SlotAlreadyBooked), Scenario.db2).
Proof. vm_compute. reflexivity. Qed.

(** *** The list of doctors *)

Lemma placeByRating_perm d l : Permutation (placeByRating d l) (d :: l).
Proof.
  induction l as [|x l IH]; simpl; [reflexivity|].
  destruct (_ >? 0); [|reflexivity].
  rewrite IH. apply perm_swap.
Qed.

Lemma sortByRating_perm l : Permutation (sortByRating l) l.
Proof.
  induction l as [|x l IH]; simpl; [reflexivity|].
  rewrite placeByRating_perm. apply perm_skip. exact IH.
Qed.

Lemma placeByRating_sorted d l :
  StronglySorted (fun a b => Doctor.rating b ≤ Doctor.rating a) l →
  StronglySorted (fun a b => Doctor.rating b ≤ Doctor.rating a) (placeByRating d l).
Proof.
  induction l as [|x l IH]; intros Hs; simpl.
  - repeat constructor.
  - apply StronglySorted_cons in Hs as [Hx Hs].
    destruct (Doctor.rating x - Doctor.rating d >? 0) eqn:Hcmp.
    + apply Z.gtb_lt in Hcmp. apply StronglySorted_cons. split; [|apply IH; exact Hs].
      rewrite placeByRating_perm. constructor; [lia | exact Hx].
    + assert (Doctor.rating x ≤ Doctor.rating d) as Hle.
      { destruct (Z.gtb_spec (Doctor.rating x - Doctor.rating d) 0); [discriminate | lia]. }
      apply StronglySorted_cons. split.
      * constructor; [exact Hle|].
        eapply Forall_impl; [exact Hx|]. simpl. intros y Hy. lia.
      * apply StronglySorted_cons. auto.
Qed.

Lemma sortByRating_sorted l :
  StronglySorted (fun a b => Doctor.rating b ≤ Doctor.rating a) (sortByRating l).
Proof.
  induction l as [|x l IH]; simpl; [constructor|].
  apply placeByRating_sorted. exact IH.
Qed.

Lemma placeByRating_rated r d l :
  List.filter (fun x => Doctor.rating x =? r) (placeByRating d l)
  = List.filter (fun x => Doctor.rating x =? r) (d :: l).
Proof.
  induction l as [|x l IH]; [reflexivity|].
  cbn [placeByRating].
  destruct (Doctor.rating x - Doctor.rating d >? 0) eqn:Hcmp; [|reflexivity].
  apply Z.gtb_lt in Hcmp.
  cbn [List.filter] in *. rewrite IH.
  destruct (Doctor.rating x =? r) eqn:Hx; destruct (Doctor.rating d =? r) eqn:Hd;
    try reflexivity.
  apply Z.eqb_eq in Hx, Hd. lia.
Qed.

Lemma sortByRating_rated r l :
  List.filter (fun x => Doctor.rating x =? r) (sortByRating l)
  = List.filter (fun x => Doctor.rating x =? r) l.
Proof.
  induction l as [|x l IH]; [reflexivity|].
  cbn [sortByRating foldr]. fold (sortByRating l).
  rewrite placeByRating_rated. cbn [List.filter]. rewrite IH. reflexivity.
Qed.

(** X9.  [fetchDoctors], when the read is delivered, returns exactly the
    verified doctors of the collection, each once, highest rating first,
    doctors of equal rating in the order of the collection; when the read
    fails it surfaces its one generic error. *)
Theorem fetchDoctors_verified_by_rating outcome docs :
  match fetchDoctors outcome docs with
  | inr doctors =>
      outcome = Delivered ∧
      Permutation doctors (List.filter Doctor.verified docs) ∧
      Forall (fun d => Doctor.verified d = true) doctors ∧
      StronglySorted (fun a b => Doctor.rating b ≤ Doctor.rating a) doctors ∧
      ∀ r, List.filter (fun d => Doctor.rating d =? r) doctors
           = List.filter (fun d => Doctor.rating d =? r)
               (List.filter Doctor.verified docs)
  | inl e => e = mkError FetchDoctorsFailed ∧ outcome ≠ Delivered
  end.
Proof.
  destruct outcome as [|reason]; simpl; [|split; [reflexivity | discriminate]].
  split; [reflexivity|]. split; [apply sortByRating_perm|]. split.
  - rewrite sortByRating_perm. apply Forall_forall. intros d Hd.
    apply list_elem_of_In, List.filter_In in Hd as [_ Hd]. exact Hd.
  - split; [apply sortByRating_sorted | intros r; apply sortByRating_rated].
Qed.

(** ** Further properties of the notification service *)

Lemma append_inj (prefix a b : string) : prefix +:+ a = prefix +:+ b → a = b.
Proof.
  induction prefix as [|ch prefix IH]; simpl; [auto|].
  intros [= H]. auto.
Qed.

Lemma cancelLocalNotification_absent id scheduled_ :
  Forall (fun n => LocalNotification.id n ≠ id) scheduled_ →
  cancelLocalNotification id scheduled_ = scheduled_.
Proof.
  intros Hall. apply filter_all. intros n Hn.
  apply negb_true_iff, String.eqb_neq.
  eapply Forall_forall in Hall; [exact Hall | exact Hn].
Qed.

(** X10.  Cancelling a consultation's reminder undoes scheduling it: the
    scheduled list is what cancelling would have left without the
    scheduling, it holds no notification under the reminder's identifier
    any more, and reminders of other consultations stay. *)
Theorem reminder_schedule_then_cancel hourBack now consultation scheduled_ :
  let id := "consultation-reminder-" +:+ Consultation.id consultation in
  let after := cancelConsultationReminder (Consultation.id consultation)
                 (scheduleConsultationReminder hourBack now consultation scheduled_) in
  after = cancelConsultationReminder (Consultation.id consultation) scheduled_ ∧
  Forall (fun n => LocalNotification.id n ≠ id) after ∧
  (∀ other, consultationReminder hourBack other ∈ scheduled_ →
            consultationReminder hourBack other ∈ after
            ∨ Consultation.id other = Consultation.id consultation) ∧
  (Forall (fun n => LocalNotification.id n ≠ id) scheduled_ → after = scheduled_).
Proof.
  intros id after.
  assert (after = cancelConsultationReminder (Consultation.id consultation) scheduled_)
    as Hafter.
  { subst after. unfold scheduleConsultationReminder, cancelConsultationReminder,
      cancelLocalNotification.
    destruct (_ >? now); [|reflexivity].
    rewrite List.filter_app. simpl. rewrite String.eqb_refl. simpl.
    apply app_nil_r. }
  split; [exact Hafter|]. rewrite Hafter. clear Hafter after.
  unfold cancelConsultationReminder, cancelLocalNotification. fold id.
  split; [|split].
  - apply Forall_forall. intros n Hn.
    apply list_elem_of_In, List.filter_In in Hn as [_ Hn].
    apply negb_true_iff, String.eqb_neq in Hn. exact Hn.
  - intros other Hother.
    destruct (decide (Consultation.id other = Consultation.id consultation))
      as [Heq|Hne]; [right; exact Heq | left].
    apply list_elem_of_In, List.filter_In. split; [apply list_elem_of_In; exact Hother|].
    apply negb_true_iff, String.eqb_neq. simpl. subst id. intros Heq.
    apply Hne. eapply append_inj. exact Heq.
  - apply cancelLocalNotification_absent.
Qed.

(** X11.  The text of a chat notification is the message itself when it has
    at most 100 UTF-16 code units, and otherwise its first 100 code units
    followed by three dots: never more than 103 code units. *)
Theorem chat_preview_bounded (message : CodeUnits) :
  let preview := chatPreview message in
  let dots := [46; 46; 46]%N in
  (length preview ≤ 103)%nat ∧
  (preview = message ∧ (length message ≤ 100)%nat
   ∨ preview = take 100 message ++ dots ∧
     take 100 message `prefix_of` message ∧
     length preview = 103%nat ∧ (100 < length message)%nat).
Proof.
  intros preview dots. subst preview dots. unfold chatPreview.
  change (utf16 "...") with [46; 46; 46]%N.
  destruct (100 <? length message)%nat eqn:Hlen.
  - apply Nat.ltb_lt in Hlen.
    assert (length (take 100 message ++ [46; 46; 46]%N) = 103%nat) as Hl.
    { rewrite length_app, length_take.
      change (length [46; 46; 46]%N) with 3%nat. lia. }
    split; [lia|]. right. split; [reflexivity|].
    split; [apply prefix_take|]. split; [exact Hl | exact Hlen].
  - apply Nat.ltb_ge in Hlen. split; [lia|]. left. auto.
Qed.

(** A message of sixty accented letters is 120 bytes of UTF-8 and 60 code
    units: it is shown whole. *)
Example chat_preview_accented :
  let eAcute := String (Ascii.ascii_of_N 195) (String (Ascii.ascii_of_N 169) "") in
  let message := String.concat "" (repeat eAcute 60) in
  String.length message = 120%nat ∧
  utf16 message = repeat 233%N 60 ∧
  chatPreview (utf16 message) = utf16 message.
Proof. cbv zeta. repeat split; vm_compute; reflexivity. Qed.

(** A four-byte character is a surrogate pair, and the preview can end
    between its two code units. *)
Example chat_preview_cuts_pair :
  let grin := String (Ascii.ascii_of_N 240) (String (Ascii.ascii_of_N 159)
                (String (Ascii.ascii_of_N 152) (String (Ascii.ascii_of_N 128) ""))) in
  utf16 grin = [55357; 56832]%N ∧
  chatPreview (repeat 97%N 99 ++ utf16 grin ++ [97%N])
  = repeat 97%N 99 ++ [55357; 46; 46; 46]%N.
Proof. cbv zeta. split; vm_compute; reflexivity. Qed.

(** X12.  A message from FCM without a notification part shows nothing;
    otherwise it shows exactly one notification, on a channel the
    constructor created, and with a title that is never empty. *)
Theorem handleFCMMessage_shows remoteMessage shown_ :
  match RemoteMessage.notification_ remoteMessage with
  | None => handleFCMMessage remoteMessage shown_ = shown_
  | Some _ =>
      ∃ n, handleFCMMessage remoteMessage shown_ = shown_ ++ [n] ∧
           Notification.channelId n ∈ createdChannels ∧
           Notification.title n ≠ ""
  end.
Proof.
  unfold handleFCMMessage.
  destruct (RemoteMessage.notification_ remoteMessage) as [notification|]; [|reflexivity].
  eexists. split; [reflexivity|]. simpl. split.
  - unfold createdChannels. repeat case_decide; set_solver.
  - unfold orElse. destruct (RemoteMessage.title notification) as [t|]; [|discriminate].
    destruct (String.eqb t "") eqn:Ht; [discriminate|].
    apply String.eqb_neq. exact Ht.
Qed.

Lemma consultationInfo_id consultationId type :
  consultationInfo consultationId type !! "consultationId" = Some consultationId.
Proof. unfold consultationInfo. rewrite lookup_insert_ne by discriminate. apply lookup_insert_eq. Qed.

(** X13.  Each notification the service sends about a consultation is one
    notification, on a channel the constructor created, carrying the
    consultation's identifier; so is the reminder it schedules. *)
Theorem notifications_on_created_channels toLocaleString hourBack consultation
    doctorName senderName message shown_ :
  let sent (after : list Notification.t) :=
    ∃ n, after = shown_ ++ [n] ∧
         Notification.channelId n ∈ createdChannels ∧
         Notification.userInfo n !! "consultationId"
         = Some (Consultation.id consultation) in
  sent (sendBookingConfirmation toLocaleString consultation shown_) ∧
  sent (sendDoctorJoinedNotification consultation shown_) ∧
  sent (sendPrescriptionNotification (Consultation.id consultation) doctorName shown_) ∧
  sent (sendChatMessageNotification (Consultation.id consultation) senderName
          message shown_) ∧
  LocalNotification.channelId (consultationReminder hourBack consultation)
    ∈ createdChannels ∧
  LocalNotification.consultationId (consultationReminder hourBack consultation)
  = Consultation.id consultation.
Proof.
  cbv zeta. unfold createdChannels.
  repeat split;
    try (eexists; split; [reflexivity|]; simpl; split;
         [set_solver | apply consultationInfo_id]).
  simpl. set_solver.
Qed.

(** ** Further properties of the store *)




Example updateReminder_refused :
  let r := Reminder.mk "r1" "Aspirin" 0 daily None true in
  let off := Reminder.mkPartial None None None None None (Some false) in
  let w := exec (addReminder Written r) Scenario.fresh in
  let w' := exec (updateReminder (Refused "disk full") "r1" off) w in
  fst (updateReminder (Refused "disk full") "r1" off w) = inl (mkError "disk full") ∧
  reminders (mem w') = [Reminder.mk "r1" "Aspirin" 0 daily None false] ∧
  reminders_ (disk w') = Value (Json [r]).
Proof. cbv zeta. repeat split; vm_compute; reflexivity. Qed.

Lemma reminders_deleteReminder write w id :
  reminders (mem (exec (deleteReminder write id) w))
  = List.filter (fun r => negb (String.eqb (Reminder.id r) id)) (reminders (mem w)).
Proof. destruct write; reflexivity. Qed.

Lemma reminders_addReminder write w r :
  reminders (mem (exec (addReminder write r) w)) = reminders (mem w) ++ [r].
Proof. destruct write; reflexivity. Qed.

Lemma filter_sublist {A} (p : A → bool) (l : list A) : sublist (List.filter p l) l.
Proof.
  induction l as [|a l IH]; simpl; [constructor|].
  destruct (p a); constructor; exact IH.
Qed.

(** X15.  [deleteReminder] leaves no reminder with the identifier and keeps
    every other reminder, in order; deleting a reminder just added under
    an unused identifier gives back the reminders there were; whether or
    not storage takes the writes. *)
Theorem deleteReminder_effect write added w id r :
  let before := reminders (mem w) in
  let after := reminders (mem (exec (deleteReminder write id) w)) in
  Forall (fun x => Reminder.id x ≠ id) after ∧
  sublist after before ∧
  (∀ x, x ∈ before → Reminder.id x ≠ id → x ∈ after) ∧
  (Forall (fun x => Reminder.id x ≠ Reminder.id r) before →
   reminders (mem (exec (deleteReminder write (Reminder.id r))
                     (exec (addReminder added r) w)))
   = before).
Proof.
  intros before after. subst after. rewrite !reminders_deleteReminder. fold before.
  split; [|split; [apply filter_sublist | split]].
  - apply Forall_forall. intros x Hx.
    apply list_elem_of_In, List.filter_In in Hx as [_ Hx].
    apply negb_true_iff, String.eqb_neq in Hx. exact Hx.
  - intros x Hx Hne. apply list_elem_of_In, List.filter_In.
    split; [apply list_elem_of_In; exact Hx|].
    apply negb_true_iff, String.eqb_neq. exact Hne.
  - intros Hfresh. rewrite reminders_addReminder. fold before.
    rewrite List.filter_app. simpl. rewrite String.eqb_refl. simpl.
    rewrite app_nil_r. apply filter_all. intros x Hx.
    apply negb_true_iff, String.eqb_neq.
    eapply Forall_forall in Hfresh; [exact Hfresh | exact Hx].
Qed.

Lemma hydrate_mem w :
  mem (exec hydrate w)
  = (if allUsable (disk w) then hydrated (disk w) (mem w) else mem w) ∧
  disk (exec hydrate w) = disk w.
Proof.
  unfold exec, hydrate, try_catch.
  destruct (hydrateBody_spec w) as [[Hbad [e Hbody]] | [Hgood Hbody]];
    rewrite Hbody; [rewrite Hbad | rewrite Hgood]; auto.
Qed.

(** X16.  [addChatMessage] appends the message to its conversation, starting
    one if there is none, and touches no other conversation; for an
    identifier that names no conversation but a property every object
    inherits (such as [constructor]) it throws instead and changes
    nothing.  Chat messages are never written to storage: after a
    restart, hydration brings none back. *)
Theorem chat_messages_in_memory_only w consultationId message :
  let result := fst (addChatMessage consultationId message w) in
  let w' := exec (addChatMessage consultationId message) w in
  match chatMessages (mem w) !! consultationId with
  | Some existing =>
      result = inr tt ∧
      chatMessages (mem w') !! consultationId = Some (existing ++ [message])
  | None =>
      if bool_decide (consultationId ∈ inheritedKeys)
      then isOk result = false ∧ w' = w
      else result = inr tt ∧
           chatMessages (mem w') !! consultationId = Some [message]
  end ∧
  (∀ other, other ≠ consultationId →
            chatMessages (mem w') !! other = chatMessages (mem w) !! other) ∧
  disk w' = disk w ∧
  chatMessages (mem (exec hydrate (restart w'))) = ∅.
Proof.
  intros result w'. subst result w'.
  split; [|split; [|split]].
  - unfold exec, addChatMessage, bind, get, getProperty; simpl.
    destruct (chatMessages (mem w) !! consultationId) as [existing|]; simpl.
    + split; [reflexivity | apply lookup_insert_eq].
    + destruct (bool_decide (consultationId ∈ inheritedKeys)); simpl.
      * split; [reflexivity | destruct w; reflexivity].
      * split; [reflexivity | apply lookup_insert_eq].
  - intros other Hne.
    unfold exec, addChatMessage, bind, get; simpl.
    destruct (getProperty (chatMessages (mem w)) consultationId); simpl;
      try reflexivity; apply lookup_insert_ne; congruence.
  - destruct (addChatMessage_cases consultationId message w) as [-> | [? ->]];
      reflexivity.
  - destruct (hydrate_mem (restart (exec (addChatMessage consultationId message) w)))
      as [-> _].
    destruct (allUsable _); reflexivity.
Qed.

Example chat_message_for_constructor :
  let sent := ChatMessage.mk "m1" "constructor" "A" "Patient A" SenderType.patient
                "hello" MessageType.text None 0 false in
  fst (addChatMessage "constructor" sent Scenario.fresh)
  = inl (mkError "TypeError: existingMessages is not iterable") ∧
  exec (addChatMessage "constructor" sent) Scenario.fresh = Scenario.fresh ∧
  chatMessages (mem (exec (addChatMessage "c1" sent) Scenario.fresh)) !! "c1"
  = Some [sent].
Proof. cbv zeta. repeat split; vm_compute; reflexivity. Qed.

(** X17.  Hydrating twice is hydrating once. *)
Theorem hydrate_idempotent w : exec hydrate (exec hydrate w) = exec hydrate w.
Proof.
  destruct (hydrate_mem (exec hydrate w)) as [Hm2 Hd2].
  destruct (hydrate_mem w) as [Hm1 Hd1].
  rewrite Hd1 in Hm2, Hd2.
  destruct (exec hydrate (exec hydrate w)) as [m2 d2].
  destruct (exec hydrate w) as [m1 d1]. simpl in *. subst d2 d1. f_equal.
  rewrite Hm2. destruct (allUsable (disk w)); [|reflexivity].
  rewrite Hm1. reflexivity.
Qed.

(** *** What the store writes, and what comes back *)

Lemma clean_allUsable d : cleanStorage d → allUsable d = true.
Proof.
  assert (∀ A (item : Item A), written item = true → usable item = true) as Hw
    by (intros A [|[]|]; simpl; congruence).
  intros (H1 & H2 & H3 & H4 & H5 & H6 & H7 & H8). unfold allUsable.
  rewrite !Hw by assumption. reflexivity.
Qed.

Lemma cleanStorage_action w a : cleanStorage (disk w) → cleanStorage (disk (exec (run a) w)).
Proof.
  intros (H1 & H2 & H3 & H4 & H5 & H6 & H7 & H8).
  destruct a as [| | | | | | | | | | | | | | | chat sent | | |];
    try (action_cases_writes; repeat split; assumption).
  - simpl. destruct (addChatMessage_cases chat sent w) as [-> | [? ->]];
      repeat split; assumption.
  - destruct (hydrate_mem w) as [_ Hd]. simpl. rewrite Hd. repeat split; assumption.
Qed.

Lemma storeReachable_clean w : storeReachable w → cleanStorage (disk w).
Proof.
  induction 1 as [| w a _ IH | w _ IH].
  - repeat split.
  - apply cleanStorage_action. exact IH.
  - exact IH.
Qed.

Lemma hydrate_after_restart w :
  cleanStorage (disk w) →
  mem (exec hydrate (restart w)) = hydrated (disk w) initialState.
Proof.
  intros Hclean. destruct (hydrate_mem (restart w)) as [-> _]. simpl.
  rewrite clean_allUsable by exact Hclean. reflexivity.
Qed.

(** X18.  In every state of the store, what an action left in the search
    history, the favorites or the theme, once storage has taken its write,
    is what a restart followed by hydration brings back; after
    [setCurrentUser(null)] no user comes back. *)
Theorem persisted_survives_restart w m :
  storeReachable w →
  let back (w' : World) := mem (exec hydrate (restart w')) in
  searchHistory (back (exec (addToHistory Written m) w))
  = searchHistory (mem (exec (addToHistory Written m) w)) ∧
  searchHistory (back (exec (clearHistory Written) w)) = [] ∧
  favorites (back (exec (toggleFavorite Written m) w))
  = favorites (mem (exec (toggleFavorite Written m) w)) ∧
  isDarkMode (back (exec (toggleTheme Written) w))
  = isDarkMode (mem (exec (toggleTheme Written) w)) ∧
  currentUser (back (exec (setCurrentUser Written None) w)) = None.
Proof.
  intros Hreach back. subst back. cbv beta.
  pose proof (fun a => storeReachable_clean _ (reach_action w a Hreach)) as Hclean.
  rewrite (hydrate_after_restart (exec (addToHistory Written m) w)
             (Hclean (AddToHistory Written m))).
  rewrite (hydrate_after_restart (exec (clearHistory Written) w)
             (Hclean (ClearHistory Written))).
  rewrite (hydrate_after_restart (exec (toggleFavorite Written m) w)
             (Hclean (ToggleFavorite Written m))).
  rewrite (hydrate_after_restart (exec (toggleTheme Written) w)
             (Hclean (ToggleTheme Written))).
  rewrite (hydrate_after_restart (exec (setCurrentUser Written None) w)
             (Hclean (SetCurrentUser Written None))).
  repeat split; reflexivity.
Qed.

Lemma persisted_survives_restart_witness :
  storeReachable Scenario.withFavorites ∧
  favorites (mem (exec hydrate (restart
     (exec (toggleFavorite Written (Scenario.medicine 3)) Scenario.withFavorites))))
  = favorites (mem (exec (toggleFavorite Written (Scenario.medicine 3))
                      Scenario.withFavorites)).
Proof.
  assert (storeReachable Scenario.withFavorites) as H.
  { apply (reach_action _ (ToggleFavorite Written (Scenario.medicine 2))).
    apply (reach_action _ (ToggleFavorite Written (Scenario.medicine 1))).
    apply reach_install. }
  split; [exact H|].
  exact (proj1 (proj2 (proj2
           (persisted_survives_restart Scenario.withFavorites (Scenario.medicine 3) H)))).
Defined.

(** *** What the collections of medicines always satisfy *)

Lemma NoDup_identities_filter (p : Medicine.t → bool) l :
  NoDup (identities l) → NoDup (identities (List.filter p l)).
Proof.
  induction l as [|a l IH]; simpl; intros Hnd; [constructor|].
  apply NoDup_cons in Hnd as [Hfresh Hnd].
  destruct (p a); simpl; [|apply IH; exact Hnd].
  apply NoDup_cons. split; [|apply IH; exact Hnd].
  intros Hin. apply Hfresh.
  apply list_elem_of_In, in_map_iff in Hin as (x & Hid & Hx).
  apply List.filter_In in Hx as [Hx _].
  rewrite <- Hid. apply list_elem_of_In, in_map. exact Hx.
Qed.

Lemma tidyHistory_add m h :
  NoDup (identities h) →
  tidyHistory (take HISTORY_LIMIT (m :: List.filter (otherMedicine m) h)).
Proof.
  intros Hnd. split; [|rewrite length_take; lia].
  unfold identities. rewrite <- firstn_map.
  eapply sublist_NoDup; [|apply sublist_take].
  simpl. apply NoDup_cons. split; [|apply NoDup_identities_filter; exact Hnd].
  intros Hin. apply list_elem_of_In, in_map_iff in Hin as (x & Hid & Hx).
  apply List.filter_In in Hx as [_ Hx].
  unfold otherMedicine in Hx. apply negb_true_iff, String.eqb_neq in Hx. congruence.
Qed.

Lemma tidyHistory_action w a :
  tidyHistory (searchHistory (mem w)) ∧
  tidyHistory (yield (searchHistory_ (disk w)) id []) →
  tidyHistory (searchHistory (mem (exec (run a) w))) ∧
  tidyHistory (yield (searchHistory_ (disk (exec (run a) w))) id []).
Proof.
  intros [Hmem Hdisk].
  destruct a as [| write medicine | write | | | | | | | | | | | | | chat sent | | |];
    try (action_cases_writes; split; assumption).
  - pose proof (tidyHistory_add medicine (searchHistory (mem w)) (proj1 Hmem)) as Hnew.
    destruct write; split; first [exact Hnew | exact Hdisk].
  - assert (tidyHistory []) as Hnil by (split; [constructor | simpl; lia]).
    destruct write; split; first [exact Hnil | exact Hdisk].
  - simpl. destruct (addChatMessage_cases chat sent w) as [-> | [? ->]];
      split; assumption.
  - destruct (hydrate_mem w) as [Hm Hd]. simpl. rewrite Hm, Hd.
    split; [|exact Hdisk]. destruct (allUsable (disk w)); assumption.
Qed.

(** X19.  In every state of the store the search history holds each identity
    at most once and at most 50 entries. *)
Theorem history_stays_tidy w :
  storeReachable w →
  NoDup (identities (searchHistory (mem w))) ∧
  (length (searchHistory (mem w)) ≤ 50)%nat.
Proof.
  intros Hreach.
  assert (tidyHistory (searchHistory (mem w)) ∧
          tidyHistory (yield (searchHistory_ (disk w)) id [])) as [H _]; [|exact H].
  induction Hreach as [| w a _ IH | w _ IH].
  - split; (split; [constructor | simpl; lia]).
  - apply tidyHistory_action. exact IH.
  - split; [split; [constructor | simpl; lia] | exact (proj2 IH)].
Qed.

Lemma history_stays_tidy_witness :
  storeReachable (addAllToHistory Written Scenario.searched Scenario.fresh) ∧
  NoDup (identities (searchHistory
                       (mem (addAllToHistory Written Scenario.searched Scenario.fresh)))) ∧
  (length (searchHistory
             (mem (addAllToHistory Written Scenario.searched Scenario.fresh))) ≤ 50)%nat.
Proof.
  assert (∀ ms w, storeReachable w → storeReachable (addAllToHistory Written ms w))
    as Hall.
  { induction ms as [|m ms IH]; intros w Hw; [exact Hw|].
    apply IH. apply (reach_action w (AddToHistory Written m)). exact Hw. }
  assert (storeReachable (addAllToHistory Written Scenario.searched Scenario.fresh)) as H
    by (apply Hall, reach_install).
  split; [exact H|].
  exact (history_stays_tidy _ H).
Defined.

Lemma flagged_action w a :
  flagged (favorites (mem w)) ∧ flagged (yield (favorites_ (disk w)) id []) →
  flagged (favorites (mem (exec (run a) w))) ∧
  flagged (yield (favorites_ (disk (exec (run a) w))) id []).
Proof.
  intros [Hmem Hdisk].
  destruct a as [| | | write medicine | | | | | | | | | | | | chat sent | | |];
    try (action_cases_writes; split; assumption).
  - assert (flagged (favorites (mem (exec (toggleFavorite write medicine) w)))) as Hnew.
    { rewrite favorites_toggleFavorite. destruct (existsb _ _).
      - apply Forall_forall. intros x Hx.
        apply list_elem_of_In, List.filter_In in Hx as [Hx _].
        eapply Forall_forall in Hmem; [exact Hmem | apply list_elem_of_In; exact Hx].
      - apply Forall_app. split; [exact Hmem|]. repeat constructor. }
    split; [exact Hnew|]. destruct write; [exact Hnew | exact Hdisk].
  - simpl. destruct (addChatMessage_cases chat sent w) as [-> | [? ->]];
      split; assumption.
  - destruct (hydrate_mem w) as [Hm Hd]. simpl. rewrite Hm, Hd.
    split; [|exact Hdisk]. destruct (allUsable (disk w)); assumption.
Qed.

(** X20.  In every state of the store the favorites hold each identity at most
    once, and every favorite carries the favorite flag. *)
Theorem favorites_stay_flagged w :
  storeReachable w →
  NoDup (identities (favorites (mem w))) ∧
  Forall (fun m => Medicine.isFavorite m = Some true) (favorites (mem w)).
Proof.
  intros Hreach. split; [apply storeReachable_distinct; exact Hreach|].
  assert (flagged (favorites (mem w)) ∧ flagged (yield (favorites_ (disk w)) id []))
    as [H _]; [|exact H].
  induction Hreach as [| w a _ IH | w _ IH].
  - split; constructor.
  - apply flagged_action. exact IH.
  - split; [constructor | exact (proj2 IH)].
Qed.

Lemma favorites_stay_flagged_witness :
  storeReachable Scenario.withFavorites ∧
  NoDup (identities (favorites (mem Scenario.withFavorites))) ∧
  Forall (fun m => Medicine.isFavorite m = Some true)
    (favorites (mem Scenario.withFavorites)).
Proof.
  assert (storeReachable Scenario.withFavorites) as H.
  { apply (reach_action _ (ToggleFavorite Written (Scenario.medicine 2))).
    apply (reach_action _ (ToggleFavorite Written (Scenario.medicine 1))).
    apply reach_install. }
  split; [exact H|].
  exact (favorites_stay_flagged _ H).
Defined.

(** ** The screens *)

(** X21.  [handleBookConsultation] shows its success alert only when a user is
    logged in, a date and a slot are selected, the booking went through
    and storage took the write of the cached consultations; then the
    consultation the service returned is the one appended to the cached
    consultations, it is stored remotely under its identifier, the
    confirmation is shown and the reminder handed to the scheduler.  When
    the booking went through and storage refused the write, the handler
    reports [Booking Failed] with the error of the write: the booking
    stays committed remotely and the consultation stays appended in
    memory, storage is as before, and no notification is shown or
    scheduled.  In every other case the store, the remote collections and
    the notifications are all as they were. *)
Theorem handleBookConsultation_effects trim scheduledTimeOf toLocaleString hourBack
    env write remindAt screen app :
  match handleBookConsultation trim scheduledTimeOf toLocaleString hourBack env write
          remindAt screen app with
  | (mkAlert title text, app') =>
      app' = app ∧ title ≠ "Success" ∨
      ∃ user slot c,
        currentUser (mem (App.store app)) = Some user ∧
        BookingScreen.selectedSlot screen = Some slot ∧
        BookingScreen.selectedDate screen ≠ "" ∧
        bookConsultation env (bookingDataOf trim scheduledTimeOf screen user slot)
          slot (BookingScreen.selectedDate screen) (App.remote app)
        = (inr c, App.remote app') ∧
        CONSULTATIONS (App.remote app') !! Consultation.id c
        = Some (Consultation.fields c) ∧
        consultations (mem (App.store app'))
        = consultations (mem (App.store app)) ++ [c] ∧
        match write with
        | Written =>
            title = "Success" ∧
            consultations_ (disk (App.store app'))
            = Value (Json (consultations (mem (App.store app')))) ∧
            App.shown app' = sendBookingConfirmation toLocaleString c (App.shown app) ∧
            App.scheduled app'
            = scheduleConsultationReminder hourBack remindAt c (App.scheduled app)
        | Refused reason =>
            title = "Booking Failed" ∧ text = reason ∧
            disk (App.store app') = disk (App.store app) ∧
            App.shown app' = App.shown app ∧
            App.scheduled app' = App.scheduled app
        end
  end.
Proof.
  unfold handleBookConsultation.
  destruct (currentUser (mem (App.store app))) as [user|] eqn:Huser;
    [|left; split; [reflexivity | discriminate]].
  destruct (String.eqb (BookingScreen.selectedDate screen) "") eqn:Hdate;
    [left; split; [reflexivity | discriminate]|].
  destruct (BookingScreen.selectedSlot screen) as [slot|] eqn:Hslot;
    [|left; split; [reflexivity | discriminate]].
  apply String.eqb_neq in Hdate.
  destruct (bookAndNotify_cases toLocaleString hourBack env write remindAt
              (bookingDataOf trim scheduledTimeOf screen user slot) slot
              (BookingScreen.selectedDate screen) app)
    as [(e & _ & ->) | (c & remote' & Hbook & Hrun)].
  - simpl. left. split; [reflexivity | discriminate].
  - pose proof Hbook as Hdoc.
    apply book_success_booked in Hdoc as (_ & _ & _ & _ & _ & Hdoc).
    destruct write as [|reason]; rewrite Hrun; simpl;
      right; exists user, slot, c; repeat split; try assumption; reflexivity.
Qed.

Example booking_cached_write_refused :
  let screen := BookingScreen.mk
                  (Doctor.mk "D" "D" "" "" "Cardiology" 5 "" [] 5 0 500 [] true None None)
                  "2025-11-29" (Some Scenario.slot0900) " cough " "" in
  let user := User.mk "A" "Patient A" "" "" None None None None None None None None in
  let app := App.mk (mkWorld (mkAppState false [] [] [] false (Some user) [] [] None ∅ [])
                       emptyStorage) Scenario.db0 [] [] in
  let '(alert, app') :=
    handleBookConsultation (fun s => s) (fun _ _ => 1764406800000) (fun _ => "")
      Scenario.fixedOffsetZone (attemptEnv Scenario.attemptA) (Refused "disk full")
      1764300000000 screen app in
  alert = mkAlert "Booking Failed" "disk full" ∧
  slotBooked (App.remote app') "D" "2025-11-29" "09:00" = true ∧
  length (consultations (mem (App.store app'))) = 1%nat ∧
  consultations_ (disk (App.store app')) = Null ∧
  App.shown app' = [] ∧ App.scheduled app' = [].
Proof. cbv zeta. repeat split; vm_compute; reflexivity. Qed.

Lemma filterConsultations_sublist f cs : sublist (filterConsultations f cs) cs.
Proof. destruct f; simpl; [reflexivity | apply filter_sublist]. Qed.

(** X22.  The status filter of the consultations list keeps the order of the
    consultations; an ongoing consultation is listed under "All" and under
    no other filter the screen offers. *)
Theorem ongoing_listed_under_all_only cs :
  filterConsultations StatusFilter.all cs = cs ∧
  Forall (fun f =>
            sublist (filterConsultations f cs) cs ∧
            (f = StatusFilter.all ∨
             Forall (fun c => Consultation.status c ≠ ongoing)
               (filterConsultations f cs)))
    filters.
Proof.
  split; [reflexivity|].
  assert (∀ s, s ≠ ongoing →
               Forall (fun c => Consultation.status c ≠ ongoing)
                 (filterConsultations (StatusFilter.only s) cs)) as Hnot.
  { intros s Hs. apply Forall_forall. intros c Hc.
    apply list_elem_of_In, List.filter_In in Hc as [_ Hc].
    apply bool_decide_eq_true in Hc. congruence. }
  unfold filters.
  repeat (constructor;
          [split; [apply filterConsultations_sublist|];
           first [left; reflexivity | right; apply Hnot; discriminate] |]).
  constructor.
Qed.

(** ** Bookings of different slots *)

(** The result of a booking is decided by the fate of its read, the slot
    it locates, its own data and the fate of its commit. *)
Lemma book_result env bookingData selectedSlot selectedDate db :
  fst (bookConsultation env bookingData selectedSlot selectedDate db)
  = match txRead env with
    | Unavailable reason =>
        inl (mkError (if String.eqb reason SlotAlreadyBooked
                      then reason else BookingFailed))
    | Delivered =>
        match locateSlot db (BookingData.doctorId bookingData) selectedDate
                (TimeSlot.startTime selectedSlot) with
        | None => inl (mkError BookingFailed)
        | Some s =>
            if TimeSlot.isBooked s then inl (mkError SlotAlreadyBooked)
            else if hasUndefinedField (newConsultation env bookingData)
            then inl (mkError BookingFailed)
            else match commit env with
                 | Committed =>
                     inr (Consultation.mk (newDocId env)
                            (newConsultation env bookingData))
                 | Aborted reason =>
                     inl (mkError (if String.eqb reason SlotAlreadyBooked
                                   then reason else BookingFailed))
                 end
        end
    end.
Proof.
  book_cases env bookingData selectedSlot selectedDate db; simpl; rewrite Hread.
  - reflexivity.
  - unfold locateSlot. rewrite Hdoc. reflexivity.
  - unfold locateSlot. rewrite Hdoc, Hidx. reflexivity.
  - rewrite (locateSlot_found _ _ _ _ _ _ _ Hdoc Hidx Hi), Hbooked. reflexivity.
  - rewrite (locateSlot_found _ _ _ _ _ _ _ Hdoc Hidx Hi), Hbooked, Hfields.
    reflexivity.
  - rewrite (locateSlot_found _ _ _ _ _ _ _ Hdoc Hidx Hi), Hbooked, Hfields, Hcommit.
    reflexivity.
  - rewrite (locateSlot_found _ _ _ _ _ _ _ Hdoc Hidx Hi), Hbooked, Hfields, Hcommit.
    reflexivity.
Qed.

Lemma locateSlot_other_slot a db doctorId date startTime :
  availabilityDocId doctorId date
    ≠ availabilityDocId (BookingData.doctorId (attemptData a)) (attemptDate a)
  ∨ startTime ≠ TimeSlot.startTime (attemptSlot a) →
  locateSlot (snd (attempt a db)) doctorId date startTime
  = locateSlot db doctorId date startTime.
Proof.
  intros Hother. destruct a as [env bookingData selectedSlot selectedDate].
  unfold attempt; simpl in *.
  book_cases env bookingData selectedSlot selectedDate db; simpl; try reflexivity.
  rewrite !locateSlot_find.
  destruct (decide (availabilityDocId doctorId date
                    = availabilityDocId (BookingData.doctorId bookingData) selectedDate))
    as [Heq|Hne].
  - destruct Hother as [Hother|Hother]; [congruence|].
    rewrite Heq, daySlots_committed by exact Hdoc.
    unfold daySlots. rewrite Hdoc.
    rewrite !find_findIndex.
    rewrite (findIndex_insert _ _ _ s) by (assumption || reflexivity).
    destruct (findIndex_spec (fun s0 => String.eqb (TimeSlot.startTime s0) startTime)
                (default [] (DoctorAvailability.slots doc)))
      as [[Hj _] | (n & x & Hj & Hn & Hp & _)]; rewrite Hj; [reflexivity|].
    replace (Z.of_nat n =? -1) with false by (symmetry; apply Z.eqb_neq; lia).
    rewrite Nat2Z.id. apply list_lookup_insert_ne.
    intros <-. apply String.eqb_eq in Hp. congruence.
  - rewrite daySlots_committed_other by exact Hne. reflexivity.
Qed.

(** X23.  A booking of one slot does not change the result of a booking of
    another slot (another day's record, or another start time) made after
    it. *)
Theorem other_slot_unaffected a b db :
  availabilityDocId (BookingData.doctorId (attemptData b)) (attemptDate b)
    ≠ availabilityDocId (BookingData.doctorId (attemptData a)) (attemptDate a)
  ∨ TimeSlot.startTime (attemptSlot b) ≠ TimeSlot.startTime (attemptSlot a) →
  fst (attempt b (snd (attempt a db))) = fst (attempt b db).
Proof.
  intros Hother. unfold attempt at 1 3. rewrite !book_result.
  rewrite (locateSlot_other_slot a db _ _ _ Hother). reflexivity.
Qed.

Lemma other_slot_unaffected_witness :
  (availabilityDocId "D" "2025-11-29" ≠ availabilityDocId "D" "2025-11-29"
   ∨ "09:30" ≠ "09:00") ∧
  fst (attempt Scenario.attemptLost (snd (attempt Scenario.attemptA Scenario.db0)))
  = fst (attempt Scenario.attemptLost Scenario.db0).
Proof.
  assert (availabilityDocId "D" "2025-11-29" ≠ availabilityDocId "D" "2025-11-29"
          ∨ "09:30" ≠ "09:00") as H by (right; discriminate).
  split; [exact H|].
  exact (other_slot_unaffected Scenario.attemptA Scenario.attemptLost Scenario.db0 H).
Defined.

(** X24.  A successful booking writes one availability record and one
    consultation document: every other availability record and every
    other consultation document is as before, and the record written keeps
    its identifier, doctor, date and creation time. *)
Theorem booking_writes_two_documents env bookingData selectedSlot selectedDate db c db' :
  bookConsultation env bookingData selectedSlot selectedDate db = (inr c, db') →
  let ref := availabilityDocId (BookingData.doctorId bookingData) selectedDate in
  (∀ other, other ≠ ref → AVAILABILITY db' !! other = AVAILABILITY db !! other) ∧
  (∀ other, other ≠ Consultation.id c →
            CONSULTATIONS db' !! other = CONSULTATIONS db !! other) ∧
  ∃ doc doc',
    AVAILABILITY db !! ref = Some doc ∧ AVAILABILITY db' !! ref = Some doc' ∧
    DoctorAvailability.id doc' = DoctorAvailability.id doc ∧
    DoctorAvailability.doctorId doc' = DoctorAvailability.doctorId doc ∧
    DoctorAvailability.date doc' = DoctorAvailability.date doc ∧
    DoctorAvailability.createdAt doc' = DoctorAvailability.createdAt doc ∧
    DoctorAvailability.updatedAt doc' = Some (now env).
Proof.
  intros Hbook ref.
  book_cases env bookingData selectedSlot selectedDate db; try discriminate.
  injection Hbook as <- <-. unfold committed; simpl. fold ref.
  split; [intros other Hne; apply lookup_insert_ne; congruence|].
  split; [intros other Hne; apply lookup_insert_ne; congruence|].
  eexists doc, _. split; [exact Hdoc|]. split; [apply lookup_insert_eq|].
  repeat split; reflexivity.
Qed.

Lemma booking_writes_two_documents_witness :
  bookConsultation (attemptEnv Scenario.attemptA) Scenario.patientA
    Scenario.slot0900 "2025-11-29" Scenario.db0
  = (inr (Consultation.mk "c1"
            (newConsultation (attemptEnv Scenario.attemptA) Scenario.patientA)),
     Scenario.db1) ∧
  ∀ other, other ≠ "c1" →
           CONSULTATIONS Scenario.db1 !! other = CONSULTATIONS Scenario.db0 !! other.
Proof.
  assert (bookConsultation (attemptEnv Scenario.attemptA) Scenario.patientA
            Scenario.slot0900 "2025-11-29" Scenario.db0
          = (inr (Consultation.mk "c1"
                    (newConsultation (attemptEnv Scenario.attemptA) Scenario.patientA)),
             Scenario.db1)) as H by (vm_compute; reflexivity).
  split; [exact H|].
  exact (proj1 (proj2 (booking_writes_two_documents _ _ _ _ _ _ _ H))).
Defined.

(** ** Acting before hydration *)

(** X25.  [addToHistory] writes the history held in memory, whatever storage
    holds: after a restart, a medicine added before hydration has run
    replaces the stored history, and hydration then brings back that one
    entry only. *)
Theorem history_added_before_hydration w m :
  storeReachable w →
  let w' := exec hydrate (exec (addToHistory Written m) (restart w)) in
  searchHistory (mem w') = [m] ∧
  searchHistory_ (disk w') = Value (Json [m]).
Proof.
  intros Hreach w'. subst w'.
  assert (storeReachable (exec (addToHistory Written m) (restart w))) as Hafter
    by (apply (reach_action _ (AddToHistory Written m)), reach_restart, Hreach).
  apply storeReachable_clean, clean_allUsable in Hafter.
  destruct (hydrate_mem (exec (addToHistory Written m) (restart w))) as [Hm Hd].
  rewrite Hm, Hd, Hafter. split; reflexivity.
Qed.

Lemma history_added_before_hydration_witness :
  storeReachable (addAllToHistory Written Scenario.searched Scenario.fresh) ∧
  searchHistory (mem (exec hydrate (exec (addToHistory Written (Scenario.medicine 7))
     (restart (addAllToHistory Written Scenario.searched Scenario.fresh)))))
  = [Scenario.medicine 7].
Proof.
  assert (∀ ms w, storeReachable w → storeReachable (addAllToHistory Written ms w))
    as Hall.
  { induction ms as [|m ms IH]; intros w Hw; [exact Hw|].
    apply IH. apply (reach_action w (AddToHistory Written m)). exact Hw. }
  assert (storeReachable (addAllToHistory Written Scenario.searched Scenario.fresh)) as H
    by (apply Hall, reach_install).
  split; [exact H|].
  exact (proj1 (history_added_before_hydration _ (Scenario.medicine 7) H)).
Defined.

(** ** Signing in *)

Lemma orElse_nonempty x fallback : fallback ≠ "" → orElse x fallback ≠ "".
Proof.
  intros Hf. unfold orElse. destruct x as [t|]; [|exact Hf].
  destruct (String.eqb t "") eqn:Ht; [exact Hf | apply String.eqb_neq; exact Ht].
Qed.

(** X26.  A successful [signInWithGoogle] returns exactly the document it
    leaves under the user's uid, and touches no other user: an existing
    user keeps the stored profile with only the device token replaced, a
    new user gets a document with the uid as identifier and a name that is
    never empty.  A failed sign-in writes nothing. *)
Theorem signInWithGoogle_consistent env users :
  match signInWithGoogle env users with
  | (inr user, users') =>
      ∃ account token,
        signedIn env = inr account ∧ fcmToken env = inr token ∧
        users' !! FirebaseUser.uid account = Some user ∧
        (∀ other, other ≠ FirebaseUser.uid account →
                  users' !! other = users !! other) ∧
        User.fcmToken user = Some token ∧
        match users !! FirebaseUser.uid account with
        | Some stored => user = withToken token stored
        | None =>
            User.id user = FirebaseUser.uid account ∧ User.name user ≠ "" ∧
            User.createdAt user = Some (signInAt env)
        end
  | (inl _, users') => users' = users
  end.
Proof.
  unfold signInWithGoogle.
  destruct (signedIn env) as [e|account]; [reflexivity|].
  destruct (userRead env) as [e|]; [reflexivity|].
  destruct (fcmToken env) as [e|token]; [reflexivity|].
  destruct (userWrite env) as [e|]; [reflexivity|].
  exists account, token. split; [reflexivity|]. split; [reflexivity|].
  split; [apply lookup_insert_eq|].
  split; [intros other Hne; apply lookup_insert_ne; congruence|].
  destruct (users !! FirebaseUser.uid account) as [stored|]; simpl.
  - split; reflexivity.
  - split; [reflexivity|]. split; [reflexivity|].
    split; [apply orElse_nonempty; discriminate | reflexivity].
Qed.
